(** * Career-page discovery: a shallow embedding of [CareerPageFinder]

    The development follows [companies_job_links_find.py].  The two methods
    that carry the discovery logic, [search_company_website] and
    [find_career_page], are embedded as computations in a small
    exception-and-trace monad: every HTTP request and every [print] is
    recorded in the trace of the run, and an exception is a value that
    [try_except] can catch.

    What the script takes from libraries stays a parameter:
    - the network, as a [World] answering GET and HEAD requests (a URL gets
      the same answer throughout a run);
    - [BeautifulSoup(content, 'html.parser')], as a function from a body to
      the [a] elements of the document, which may raise;
    - [urllib.parse.urljoin], as a function that may raise;
    - [str.lower] and [str.strip], whose results depend on the Unicode
      tables.

    A Python [str] is modelled by the [string] of its UTF-8 bytes.  The
    other operations the script applies to text ([in] with a keyword or
    with ['.txt'], [rstrip('/')], [replace('.txt', ...)], [+], [==]) have
    ASCII arguments only and so act on the bytes as they act on the
    characters.  [Text.lower] and [BatchFixtures.strip_ascii] are what
    [str.lower] and [str.strip] do on ASCII text; the examples use them. *)

From Stdlib Require Import List String Ascii Bool Arith ZArith Lia.
From Stdlib Require Import Decimal DecimalString Permutation Sorted.
Import ListNotations.
Local Open Scope string_scope.
Local Open Scope list_scope.

(** ** Text primitives *)

Module Text.

(** The letters A-Z are folded, every other character is kept. *)
Definition lower_ascii (c : ascii) : ascii :=
  let n := nat_of_ascii c in
  if ((65 <=? n)%nat && (n <=? 90)%nat)%bool then ascii_of_nat (n + 32) else c.

(** [s.lower()] for a [str] of ASCII characters.  The methods below take
    [str.lower] as a parameter; this is its value on ASCII text. *)
Fixpoint lower (s : string) : string :=
  match s with
  | EmptyString => EmptyString
  | String c t => String (lower_ascii c) (lower t)
  end.

(** [hay.startswith(needle)] *)
Fixpoint startswith (needle hay : string) : bool :=
  match needle, hay with
  | EmptyString, _ => true
  | String _ _, EmptyString => false
  | String a n', String b h' => (Ascii.eqb a b && startswith n' h')%bool
  end.

(** [needle in hay]: the needle starts at some position of [hay]. *)
Fixpoint contains (needle hay : string) : bool :=
  (startswith needle hay ||
   match hay with
   | EmptyString => false
   | String _ t => contains needle t
   end)%bool.

(** [s.rstrip(c)] for a one-character set: every trailing [c] goes. *)
Fixpoint rstrip (c : ascii) (s : string) : string :=
  match s with
  | EmptyString => EmptyString
  | String a t =>
      match rstrip c t with
      | EmptyString => if Ascii.eqb a c then EmptyString else String a EmptyString
      | r => String a r
      end
  end.

(** [n] copies of the character [c]. *)
Fixpoint replicate (n : nat) (c : ascii) : string :=
  match n with
  | O => EmptyString
  | S k => String c (replicate k c)
  end.

(** Python truthiness of a [str]: the empty string is falsy. *)
Definition truthy (s : string) : bool :=
  match s with EmptyString => false | String _ _ => true end.

(** Python truthiness of [None | str]. *)
Definition truthy_opt (o : option string) : bool :=
  match o with None => false | Some s => truthy s end.

(** [x in l] for a list of strings. *)
Definition mem (x : string) (l : list string) : bool :=
  existsb (String.eqb x) l.


(** [needle] occurs in [hay] as a contiguous block. *)
Definition Substring (needle hay : string) : Prop :=
  exists pre post, hay = (pre ++ needle ++ post)%string.

(** [s] ends with the character [c]. *)
Definition EndsWith (c : ascii) (s : string) : Prop :=
  exists pre, s = (pre ++ String c EmptyString)%string.

End Text.

(** ** Exceptions, traces and the monad of the script *)

(** An exception, identified with its message [str(e)]; the model covers
    the instances of [Exception] that the network and the parsers raise. *)
Definition exn := string.

Inductive outcome (A : Type) : Type :=
| Returns (a : A)
| Raises (e : exn).
Arguments Returns {A} a.
Arguments Raises {A} e.

(** What a run does that the outside can see, in the order it happens. *)
Inductive event : Type :=
| GET (url : string) (timeout : Z)
| HEAD (url : string) (timeout : Z)
| PRINT (line : string).

Definition trace := list event.

Definition is_HEAD (ev : event) : bool :=
  match ev with HEAD _ _ => true | _ => false end.

(** A computation returns a value or raises, and leaves the events it
    produced up to that point. *)
Definition M (A : Type) : Type := (outcome A * trace)%type.

Definition value {A} (m : M A) : outcome A := fst m.

Definition events {A} (m : M A) : trace := snd m.

Definition ret {A} (a : A) : M A := (Returns a, []).

Definition bind {A B} (m : M A) (k : A -> M B) : M B :=
  match m with
  | (Returns a, t) => let (o, t') := k a in (o, t ++ t')
  | (Raises e, t) => (Raises e, t)
  end.

(** [try: m  except Exception as e: handler e]; the bare [except:] of the
    probing loop is the same here. *)
Definition try_except {A} (m : M A) (handler : exn -> M A) : M A :=
  match m with
  | (Returns a, t) => (Returns a, t)
  | (Raises e, t) => let (o, t') := handler e in (o, t ++ t')
  end.

(** A pure library call that may raise. *)
Definition call {A} (o : outcome A) : M A := (o, []).

Definition emit (ev : event) : M unit := (Returns tt, [ev]).

Definition print (line : string) : M unit := emit (PRINT line).

Declare Scope monad_scope.
Delimit Scope monad_scope with monad.
Notation "x <- m ;; k" := (bind m (fun x => k))
  (at level 61, m at next level, right associativity) : monad_scope.
Notation "m ;;; k" := (bind m (fun _ => k))
  (at level 61, right associativity) : monad_scope.
Local Open Scope monad_scope.

(** ** Data model *)

(** An [a] element as the script reads it: its [href] attribute when it has
    one, the values of its [class] attribute, and [get_text(strip=True)]. *)
Record a_tag : Type := mk_a {
  attr_href : option string;
  attr_class : list string;
  get_text : string
}.

(** [requests.Response], reduced to the two attributes the script reads. *)
Record response : Type := mk_response {
  status_code : Z;
  content : string
}.

(** The network: what a GET and a HEAD of a URL give, or raise. *)
Record World : Type := mk_world {
  http_get : string -> outcome response;
  http_head : string -> outcome response
}.

(** The dict returned by [find_career_page]. *)
Record result : Type := mk_result {
  company : string;
  main_website : string;
  career_urls : list string
}.

Definition sentinel_not_found : string := "Not found".
Definition sentinel_error : string := "Error".

Definition is_sentinel (s : string) : bool :=
  (String.eqb s sentinel_not_found || String.eqb s sentinel_error)%bool.

(** ** The methods of [CareerPageFinder] *)

Section CareerPageFinder.

(** [BeautifulSoup(content, 'html.parser')], seen through the [a] elements
    of the parsed document in document order. *)
Variable BeautifulSoup : string -> outcome (list a_tag).

(** [urllib.parse.urljoin(base, url)]. *)
Variable urljoin : string -> string -> outcome string.

(** [s.lower()] *)
Variable str_lower : string -> string.

(** The network the session talks to. *)
Variable w : World.

(** [self.session.get(url, timeout=...)] *)
Definition session_get (url : string) (timeout : Z) : M response :=
  emit (GET url timeout) ;;; call (http_get w url).

(** [self.session.head(url, timeout=...)] *)
Definition session_head (url : string) (timeout : Z) : M response :=
  emit (HEAD url timeout) ;;; call (http_head w url).

(** [soup.find_all('a', {'class': cls})] *)
Definition find_all_class (soup : list a_tag) (cls : string) : list a_tag :=
  filter (fun a => Text.mem cls (attr_class a)) soup.

Definition has_href (a : a_tag) : bool :=
  match attr_href a with Some _ => true | None => false end.

(** [soup.find_all('a', href=True)] *)
Definition find_all_href (soup : list a_tag) : list a_tag :=
  filter has_href soup.

(** [link.get('href', '')] *)
Definition get_href_or_empty (link : a_tag) : string :=
  match attr_href link with Some h => h | None => "" end.

(** [link['href']] *)
Definition getitem_href (link : a_tag) : outcome string :=
  match attr_href link with
  | Some h => Returns h
  | None => Raises "'href'"
  end.

Definition search_url (company_name : string) : string :=
  let search_query := (company_name ++ " official website")%string in
  ("https://duckduckgo.com/html/?q=" ++ search_query)%string.

Definition search_company_website (company_name : string) : M (option string) :=
  try_except
    (response <- session_get (search_url company_name) 10 ;;
     soup <- call (BeautifulSoup (content response)) ;;
     let result_links := find_all_class soup "result__a" in
     match result_links with
     | first :: _ =>
         let main_url := attr_href first in
         if Text.truthy_opt main_url then ret main_url else ret None
     | [] => ret None
     end)
    (fun e =>
       print ("Search error for " ++ company_name ++ ": " ++ e)%string ;;;
       ret None).

Definition career_patterns : list string :=
  [ "/careers"; "/career"; "/jobs"; "/job-opportunities"; "/work-with-us";
    "/join-us"; "/employment"; "/opportunities"; "/hiring"; "/openings" ].

Definition career_keywords : list string :=
  [ "career"; "job"; "work with us"; "join us"; "employment"; "hiring";
    "opportunities"; "openings" ].

(** The test of line 83 on one link:
    [any(keyword in href or keyword in text for keyword in career_keywords)]
    with [href] and [text] lower-cased. *)
Definition is_career_link (link : a_tag) : bool :=
  let href := str_lower (get_href_or_empty link) in
  let text := str_lower (get_text link) in
  existsb (fun keyword => Text.contains keyword href || Text.contains keyword text)
          career_keywords.

(** [if full_url not in career_links: career_links.append(full_url)] *)
Definition append_new (career_links : list string) (full_url : string) : list string :=
  if Text.mem full_url career_links then career_links else career_links ++ [full_url].

(** The loop of lines 76-86 over [all_links], with [career_links] as the
    list it grows. *)
Fixpoint scan_links (main_website : string) (all_links : list a_tag)
         (career_links : list string) : M (list string) :=
  match all_links with
  | [] => ret career_links
  | link :: rest =>
      if is_career_link link then
        href <- call (getitem_href link) ;;
        full_url <- call (urljoin main_website href) ;;
        scan_links main_website rest (append_new career_links full_url)
      else scan_links main_website rest career_links
  end.

(** The loop of lines 91-98 over the patterns. *)
Fixpoint probe_patterns (base_url : string) (patterns : list string)
         (career_links : list string) : M (list string) :=
  match patterns with
  | [] => ret career_links
  | pattern :: rest =>
      let test_url := (base_url ++ pattern)%string in
      career_links' <-
        try_except
          (test_response <- session_head test_url 5 ;;
           if (status_code test_response =? 200)%Z
           then ret (career_links ++ [test_url])
           else ret career_links)
          (fun _ => ret career_links) ;;
      probe_patterns base_url rest career_links'
  end.

(** Lines 53-104: what [find_career_page] does once [main_website] holds
    a non-empty URL. *)
Definition scan_homepage (company_name main_website : string) : M result :=
  response <- session_get main_website 10 ;;
  soup <- call (BeautifulSoup (content response)) ;;
  let all_links := find_all_href soup in
  career_links <- scan_links main_website all_links [] ;;
  career_links <-
    match career_links with
    | [] =>
        let base_url := Text.rstrip "/" main_website in
        probe_patterns base_url career_patterns career_links
    | _ :: _ => ret career_links
    end ;;
  ret {| company := company_name;
         main_website := main_website;
         career_urls := firstn 3 career_links |}.

(** [main_website or "Error"] *)
Definition or_error (main_website : option string) : string :=
  match main_website with
  | Some u => if Text.truthy u then u else sentinel_error
  | None => sentinel_error
  end.

(** The [except Exception as e] block of lines 106-112, with the value
    the variable [main_website] has when the exception arrives. *)
Definition on_exception (company_name : string) (main_website : option string)
           (e : exn) : M result :=
  print ("Error processing " ++ company_name ++ ": " ++ e)%string ;;;
  ret {| company := company_name;
         main_website := or_error main_website;
         career_urls := [] |}.

Definition not_found (company_name : string) : result :=
  {| company := company_name;
     main_website := sentinel_not_found;
     career_urls := [] |}.

(** Lines 53-104 under the handler of lines 106-112, as they run once
    the variable [main_website] holds [url]. *)
Definition scan_homepage_guarded (company_name url : string) : M result :=
  try_except (scan_homepage company_name url)
             (on_exception company_name (Some url)).

(** [find_career_page(company_name, main_website=None)].

    The source has one [try] whose handler reads the variable
    [main_website], which line 49 reassigns.  Here the handler is
    attached twice: around the search with the caller's value, and around
    everything after the assignment with the new value
    ([scan_homepage_guarded]). *)
Definition find_career_page (company_name : string)
           (main_website : option string) : M result :=
  let resolve :=
    try_except
      (found <- search_company_website company_name ;;
       match found with
       | Some url => if Text.truthy url
                     then scan_homepage_guarded company_name url
                     else ret (not_found company_name)
       | None => ret (not_found company_name)
       end)
      (on_exception company_name main_website) in
  match main_website with
  | Some url => if Text.truthy url
                then scan_homepage_guarded company_name url
                else resolve
  | None => resolve
  end.

End CareerPageFinder.

Arguments session_get w url timeout : assert.
Arguments session_head w url timeout : assert.

(** ** Vocabulary for the statements *)

(** The URL that [find_career_page] goes on to fetch: the caller's when it
    is a non-empty string, else what the search gave; [None] when the run
    ends with "Not found". *)
Definition homepage_of (BeautifulSoup : string -> outcome (list a_tag)) (w : World)
           (company_name : string) (main_website : option string) : option string :=
  let resolved :=
    match value (search_company_website BeautifulSoup w company_name) with
    | Returns (Some url) => if Text.truthy url then Some url else None
    | _ => None
    end in
  match main_website with
  | Some url => if Text.truthy url then Some url else resolved
  | None => resolved
  end.



(** The HEAD of [url] comes back, and with status 200. *)
Definition probe_succeeds (w : World) (url : string) : bool :=
  match http_head w url with
  | Returns test_response => (status_code test_response =? 200)%Z
  | Raises _ => false
  end.

(** The URLs the fallback probes for a homepage, in the order of the
    patterns. *)
Definition probe_urls (main_website : string) : list string :=
  map (fun pattern => (Text.rstrip "/" main_website ++ pattern)%string) career_patterns.

(** Position of the first occurrence of [x] in [l]. *)
Fixpoint first_index (x : string) (l : list string) : option nat :=
  match l with
  | [] => None
  | y :: t =>
      if String.eqb x y then Some 0
      else match first_index x t with
           | Some i => Some (S i)
           | None => None
           end
  end.

(** [urls] lists, link by link, what [urljoin] gives for the [href] of each
    of [links]. *)
Definition Resolved (urljoin : string -> string -> outcome string)
           (main_website : string) (links : list a_tag) (urls : list string) : Prop :=
  Forall2 (fun link url =>
             exists href, attr_href link = Some href /\
                          urljoin main_website href = Returns url)
          links urls.

(** [urls] in the order of their first occurrence, each once: the list
    that the scan builds from the resolved URLs. *)
Definition first_seen (urls : list string) : list string :=
  fold_left append_new urls [].

(** The line the handler of [find_career_page] prints. *)
Definition error_line (company_name : string) (e : exn) : event :=
  PRINT ("Error processing " ++ company_name ++ ": " ++ e)%string.

(** The result of a run that an exception ended after [url] was known. *)
Definition failed (company_name url : string) : result :=
  {| company := company_name; main_website := url; career_urls := [] |}.

(** ** Fixtures: small pages, parsers and networks *)

Module Fixtures.

Definition has_http_scheme (url : string) : bool :=
  (Text.startswith "http://" url || Text.startswith "https://" url)%bool.

(** [urljoin] for a base that is a bare origin ([https://host], no path):
    an absolute URL stands for itself, an absolute path is appended to
    the origin.  Other forms are not needed below. *)
Definition urljoin_origin (base url : string) : outcome string :=
  if has_http_scheme url then Returns url
  else if Text.startswith "/" url then Returns (base ++ url)%string
  else Raises "urljoin fixture: form not covered".

Definition lookup {A} (key : string) (table : list (string * A)) : option A :=
  match find (fun entry => String.eqb (fst entry) key) table with
  | Some entry => Some (snd entry)
  | None => None
  end.

(** A parser given by the bodies it knows; it raises on the body
    ["<garbled>"] and sees no [a] element in any other body. *)
Definition parser_of (pages : list (string * list a_tag)) (body : string)
  : outcome (list a_tag) :=
  if String.eqb body "<garbled>" then Raises "parser error"
  else match lookup body pages with
       | Some soup => Returns soup
       | None => Returns []
       end.

(** A network given by the pages it serves and by the status of the
    HEAD probes it answers.  Like [requests], it refuses a string without
    an HTTP scheme; an unknown page times out, an unknown probe is a
    404. *)
Definition network (pages : list (string * outcome response))
           (heads : list (string * outcome response)) : World :=
  {| http_get := fun url =>
       if has_http_scheme url then
         match lookup url pages with
         | Some o => o
         | None => Raises "Read timed out. (read timeout=10)"
         end
       else Raises ("Invalid URL '" ++ url ++ "': No scheme supplied")%string;
     http_head := fun url =>
       if has_http_scheme url then
         match lookup url heads with
         | Some o => o
         | None => Returns (mk_response 404 "")
         end
       else Raises ("Invalid URL '" ++ url ++ "': No scheme supplied")%string |}.

Definition ok (body : string) : outcome response := Returns (mk_response 200 body).

Definition link (href text : string) : a_tag := mk_a (Some href) [] text.

Definition acme : string := "https://acme.example".

(** The page of the spec's scenario: an About link and a Careers link. *)
Definition body_about_careers : string :=
  "<a href='/about'>About</a><a href='/careers'>Careers</a>".

(** A page without any career link. *)
Definition body_plain : string :=
  "<a href='/about'>About</a><a name='top'>Jobs</a>".

(** Five career links, the last two to the same place. *)
Definition body_five : string :=
  "<a href='/jobs1'>1</a><a href='/jobs2'>2</a><a href='/jobs3'>3</a><a href='/jobs4'>4</a><a href='/jobs4'>4</a>".

(** Two links to the same place around another one. *)
Definition body_twice : string :=
  "<a href='/careers'>Careers</a><a href='/jobs'>Jobs</a><a href='/careers'>Join Us Today</a>".

(** A result page of the search, with one organic result. *)
Definition body_results : string :=
  "<a class='result__a' href='https://acme.example'>Acme</a>".

Definition parser : string -> outcome (list a_tag) :=
  parser_of
    [ (body_about_careers, [link "/about" "About"; link "/careers" "Careers"]);
      (body_plain, [link "/about" "About"; mk_a None [] "Jobs"]);
      (body_five, [link "/jobs1" "1"; link "/jobs2" "2"; link "/jobs3" "3";
                   link "/jobs4" "4"; link "/jobs4" "4"]);
      (body_twice, [link "/careers" "Careers"; link "/jobs" "Jobs";
                    link "/careers" "Join Us Today"]);
      (body_results, [mk_a (Some acme) ["result__a"] "Acme"]) ].

(** The homepage times out. *)
Definition net_timeout : World :=
  network [ (search_url "Acme", ok body_results) ] [].

(** The homepage has an About and a Careers link. *)
Definition net_careers : World :=
  network [ (search_url "Acme", ok body_results); (acme, ok body_about_careers) ] [].

(** The homepage, given with or without a trailing slash, has no career
    link; only [/jobs] answers 200 and [/hiring] breaks the connection. *)
Definition net_jobs_only : World :=
  network [ (acme, ok body_plain); ((acme ++ "/")%string, ok body_plain) ]
          [ ((acme ++ "/jobs")%string, ok "");
            ((acme ++ "/hiring")%string, Raises "Connection aborted.") ].

(** The same homepage and the same probes on a network that also serves a
    search page and another site. *)
Definition net_jobs_only_wider : World :=
  network [ (search_url "Acme", ok body_results);
            (acme, ok body_plain);
            ("https://other.example", ok body_five) ]
          [ ((acme ++ "/jobs")%string, ok "");
            ((acme ++ "/hiring")%string, Raises "Connection aborted.");
            ("https://other.example/careers", ok "") ].

(** The homepage has no career link; [/jobs] answers 200 and every other
    probe 404. *)
Definition net_jobs_else_404 : World :=
  network [ ((acme ++ "/")%string, ok body_plain) ]
          [ ((acme ++ "/jobs")%string, ok "") ].

(** The homepage has no career link and every probe answers 200. *)
Definition net_all_200 : World :=
  {| http_get := http_get (network [ (acme, ok body_plain) ] []);
     http_head := fun _ => ok "" |}.

(** The homepage has five career links. *)
Definition net_five : World := network [ (acme, ok body_five) ] [].

(** The homepage links twice to the same place. *)
Definition net_twice : World := network [ (acme, ok body_twice) ] [].

(** The search itself fails. *)
Definition net_down : World :=
  {| http_get := fun _ => Raises "Max retries exceeded";
     http_head := fun _ => Raises "Max retries exceeded" |}.

(** A homepage below the site root, without career links; the probes
    below that path answer 200. *)
Definition x_home : string := "https://x.com/en/home".

Definition net_x : World :=
  network [ (x_home, ok body_plain) ]
          [ ((x_home ++ "/careers")%string, ok "") ].

End Fixtures.

(** ** The batch layer: reading the companies, saving, reporting *)

(** The rest of [CareerPageFinder] runs [find_career_page] over a file of
    company names and writes what it finds.  Its effects are recorded in a
    trace of their own: the events of each [find_career_page], the files
    written (with what is written in them, before [csv] and [json] turn it
    into bytes) and the pauses.  The console lines of this layer are left
    out of the trace.  Text is modelled as before. *)

Module Batch.

(** [s.replace(old, new)] for a non-empty [old], scanning from the left:
    at a match [new] is written and the rest of the match skipped,
    [skip] counting the characters still to skip. *)
Fixpoint replace_from (old new : string) (skip : nat) (s : string) : string :=
  match s with
  | EmptyString => EmptyString
  | String c t =>
      match skip with
      | S k => replace_from old new k t
      | O =>
          if Text.startswith old s
          then (new ++ replace_from old new (String.length old - 1) t)%string
          else String c (replace_from old new 0 t)
      end
  end.

Definition replace (old new s : string) : string := replace_from old new 0 s.

(** [str(i)] for a natural number. *)
Definition str (i : nat) : string := NilZero.string_of_uint (Nat.to_uint i).

(** [filename.replace('.txt', '.csv') if '.txt' in filename
     else filename + '.csv'] *)
Definition csv_filename (filename : string) : string :=
  if Text.contains ".txt" filename then replace ".txt" ".csv" filename
  else (filename ++ ".csv")%string.

(** [filename.replace('.txt', '.json') if '.txt' in filename
     else filename + '.json'] *)
Definition json_filename (filename : string) : string :=
  if Text.contains ".txt" filename then replace ".txt" ".json" filename
  else (filename ++ ".json")%string.

(** A row of the CSV file, under the field names of line 167. *)
Record csv_row : Type := mk_row {
  Company : string;
  Main_Website : string;
  Career_URL_1 : string;
  Career_URL_2 : string;
  Career_URL_3 : string;
  Total_Career_URLs : nat
}.

(** [urls[i] if len(urls) > i else ''] *)
Definition item_or_empty (urls : list string) (i : nat) : string :=
  if (i <? List.length urls)%nat then nth i urls "" else "".

(** The dict [row] of lines 172-179. *)
Definition row_of (r : result) : csv_row :=
  {| Company := company r;
     Main_Website := main_website r;
     Career_URL_1 := item_or_empty (career_urls r) 0;
     Career_URL_2 := item_or_empty (career_urls r) 1;
     Career_URL_3 := item_or_empty (career_urls r) 2;
     Total_Career_URLs := List.length (career_urls r) |}.

(** The three URL columns of a row. *)
Definition url_columns (row : csv_row) : list string :=
  [ Career_URL_1 row; Career_URL_2 row; Career_URL_3 row ].

(** What goes into a file. *)
Inductive payload : Type :=
| CSV (rows : list csv_row)
| JSON (results : list result).

Inductive io_event : Type :=
| FINDER (ev : event)
| OPEN (path : string)
| WRITE (path : string) (data : payload)
| SLEEP (seconds : Z).

Definition is_WRITE (ev : io_event) : bool :=
  match ev with WRITE _ _ => true | _ => false end.

Definition is_SLEEP (ev : io_event) : bool :=
  match ev with SLEEP _ => true | _ => false end.

(** The events of [find_career_page] in a batch trace, in order. *)
Fixpoint finder_events (t : list io_event) : trace :=
  match t with
  | [] => []
  | FINDER ev :: rest => ev :: finder_events rest
  | _ :: rest => finder_events rest
  end.

(** What opening the input file for reading gives. *)
Inductive read_outcome : Type :=
| Lines (lines : list string)
| FileNotFoundError
| ReadError (e : exn).

(** The file system: the lines of a file, and whether a file can be
    written. *)
Record Disk : Type := mk_disk {
  disk_read : string -> read_outcome;
  disk_write : string -> outcome unit
}.

(** Computations of the batch layer. *)
Definition B (A : Type) : Type := (outcome A * list io_event)%type.

Definition retB {A} (a : A) : B A := (Returns a, []).

Definition bindB {A C} (m : B A) (k : A -> B C) : B C :=
  match m with
  | (Returns a, t) => let (o, t') := k a in (o, t ++ t')
  | (Raises e, t) => (Raises e, t)
  end.

Definition tryB {A} (m : B A) (handler : exn -> B A) : B A :=
  match m with
  | (Returns a, t) => (Returns a, t)
  | (Raises e, t) => let (o, t') := handler e in (o, t ++ t')
  end.

(** A call of a method of the finder from the batch layer. *)
Definition finder {A} (m : M A) : B A := (value m, map FINDER (events m)).

Declare Scope batch_scope.
Delimit Scope batch_scope with batch.
Notation "x <- m ;; k" := (bindB m (fun x => k))
  (at level 61, m at next level, right associativity) : batch_scope.
Notation "m ;;; k" := (bindB m (fun _ => k))
  (at level 61, right associativity) : batch_scope.

(** The numbers [generate_summary_report] prints, apart from the two
    percentages. *)
Record summary : Type := mk_summary {
  total_companies : nat;
  found_websites : nat;
  found_career_pages : nat;
  no_career_page : nat;
  top_companies : list result
}.

Definition has_career_urls (r : result) : bool :=
  match career_urls r with [] => false | _ :: _ => true end.

Definition url_count (r : result) : nat := List.length (career_urls r).

(** One step of [sorted(..., key=url_count, reverse=True)]: [r] goes in
    front of the first entry that has no more URLs than it has. *)
Fixpoint insert_by_count (r : result) (sorted : list result) : list result :=
  match sorted with
  | [] => [r]
  | r' :: rest =>
      if (url_count r <? url_count r')%nat then r' :: insert_by_count r rest
      else r :: sorted
  end.

(** [sorted(rs, key=lambda x: len(x['career_urls']), reverse=True)]: the
    stable sort by decreasing number of URLs, as an insertion sort. *)
Definition sorted_by_count (rs : list result) : list result :=
  fold_right insert_by_count [] rs.

(** [generate_summary_report(results)]: the numbers of the report, or the
    [ZeroDivisionError] of the percentages when [results] is empty. *)
Definition generate_summary_report (results : list result) : outcome summary :=
  let total := List.length results in
  let career := List.length (filter has_career_urls results) in
  let websites :=
    List.length (filter (fun r => negb (is_sentinel (main_website r))) results) in
  if (total =? 0)%nat then Raises "division by zero"
  else
    Returns {| total_companies := total;
               found_websites := websites;
               found_career_pages := career;
               no_career_page := total - career;
               top_companies :=
                 firstn 10 (sorted_by_count (filter has_career_urls results)) |}.

Section Methods.
Variable BeautifulSoup : string -> outcome (list a_tag).
Variable urljoin : string -> string -> outcome string.
Variable str_lower : string -> string.

(** [s.strip()] *)
Variable str_strip : string -> string.

Variable w : World.
Variable disk : Disk.

Local Open Scope batch_scope.

(** [with open(path, 'w') as f: ...]: the file is written when it can be
    opened. *)
Definition write_file (path : string) (data : payload) : B unit :=
  match disk_write disk path with
  | Returns _ => (Returns tt, [WRITE path data])
  | Raises e => (Raises e, [])
  end.

(** [save_results(results, filename)] *)
Definition save_results (results : list result) (filename : string) : B unit :=
  write_file (csv_filename filename) (CSV (map row_of results)) ;;;
  write_file (json_filename filename) (JSON results).

(** [f"progress_{i}_{output_file}"] *)
Definition progress_name (i : nat) (output_file : string) : string :=
  ("progress_" ++ str i ++ "_" ++ output_file)%string.

(** [time.sleep(seconds)] *)
Definition sleep (seconds : Z) : B unit := (Returns tt, [SLEEP seconds]).

(** The loop of lines 126-149; [i] is the counter of [enumerate] and
    [results] the list built so far. *)
Fixpoint process_loop (companies : list string) (i : nat) (results : list result)
         (output_file : string) : B (list result) :=
  match companies with
  | [] => retB results
  | company_name :: rest =>
      r <- finder (find_career_page BeautifulSoup urljoin str_lower w company_name None) ;;
      let results := results ++ [r] in
      (if (i mod 50 =? 0)%nat
       then save_results results (progress_name i output_file)
       else retB tt) ;;;
      sleep 2 ;;;
      process_loop rest (S i) results output_file
  end.

(** [[line.strip() for line in file if line.strip()]] *)
Definition company_names (lines : list string) : list string :=
  map str_strip (filter (fun line => Text.truthy (str_strip line)) lines).

(** Opening and reading the input file. *)
Definition read_companies (input_file : string) : B (list string) :=
  match disk_read disk input_file with
  | Lines lines => (Returns (company_names lines), [OPEN input_file])
  | FileNotFoundError =>
      (Raises ("[Errno 2] No such file or directory: '" ++ input_file ++ "'")%string,
       [OPEN input_file])
  | ReadError e => (Raises e, [OPEN input_file])
  end.

(** [process_companies_from_file(input_file, output_file)]: the list of
    results, or [None] when an exception ended the run (both handlers
    print a line and fall off the end of the method). *)
Definition process_companies_from_file (input_file output_file : string)
  : B (option (list result)) :=
  tryB
    (companies <- read_companies input_file ;;
     results <- process_loop companies 1 [] output_file ;;
     save_results results output_file ;;;
     (match generate_summary_report results with
      | Returns _ => retB tt
      | Raises e => (Raises e, [])
      end) ;;;
     retB (Some results))
    (fun _ => retB None).

End Methods.

(** ** Vocabulary for the batch statements *)

(** The result [find_career_page(company_name)] returns; the method never
    raises, so the second branch is never taken. *)
Definition found (BeautifulSoup : string -> outcome (list a_tag))
           (urljoin : string -> string -> outcome string)
           (str_lower : string -> string) (w : World)
           (company_name : string) : result :=
  match value (find_career_page BeautifulSoup urljoin str_lower w company_name None) with
  | Returns r => r
  | Raises _ => not_found company_name
  end.

(** The two files of one [save_results]. *)
Definition saved (results : list result) (filename : string) : list io_event :=
  [ WRITE (csv_filename filename) (CSV (map row_of results));
    WRITE (json_filename filename) (JSON results) ].

(** The checkpoints of a run that ends with [results]: one after every
    fiftieth company, with the results up to there. *)
Definition checkpoints (results : list result) (output_file : string) : list io_event :=
  flat_map (fun k => saved (firstn (50 * k) results) (progress_name (50 * k) output_file))
           (seq 1 (List.length results / 50)).

(** [s[k:]] *)
Fixpoint drop (k : nat) (s : string) : string :=
  match k, s with
  | O, _ => s
  | S _, EmptyString => EmptyString
  | S k', String _ t => drop k' t
  end.

(** The paths of the files written, in order. *)
Fixpoint written_paths (t : list io_event) : list string :=
  match t with
  | [] => []
  | WRITE path _ :: rest => path :: written_paths rest
  | _ :: rest => written_paths rest
  end.

(** Non-increasing numbers of URLs along a list. *)
Definition by_decreasing_count (rs : list result) : Prop :=
  forall i j r r', nth_error rs i = Some r -> nth_error rs j = Some r' ->
                   (i < j)%nat -> (url_count r' <= url_count r)%nat.

End Batch.

(** ** A page for the keyword examples *)

Module KeywordFixtures.




End KeywordFixtures.

(** ** Fixtures for the batch layer *)

Module BatchFixtures.

(** The ASCII characters that [str.isspace] accepts. *)
Definition is_space (c : ascii) : bool :=
  let n := nat_of_ascii c in
  ((9 <=? n)%nat && (n <=? 13)%nat || (28 <=? n)%nat && (n <=? 32)%nat)%bool.

(** Leading ASCII whitespace removed. *)
Fixpoint lstrip (s : string) : string :=
  match s with
  | EmptyString => EmptyString
  | String c t => if is_space c then lstrip t else s
  end.

(** Trailing ASCII whitespace removed. *)
Fixpoint rstrip (s : string) : string :=
  match s with
  | EmptyString => EmptyString
  | String c t =>
      match rstrip t with
      | EmptyString => if is_space c then EmptyString else String c EmptyString
      | r => String c r
      end
  end.

(** [s.strip()] for a [str] of ASCII characters. *)
Definition strip_ascii (s : string) : string := rstrip (lstrip s).

Definition input_file : string := "standardized_companies.txt".
Definition output_file : string := "company_career_pages".

(** A disk given by the text files it holds; [writable] tells whether it
    takes new files. *)
Definition disk_with (files : list (string * list string)) (writable : bool)
  : Batch.Disk :=
  {| Batch.disk_read := fun path =>
       match Fixtures.lookup path files with
       | Some lines => Batch.Lines lines
       | None => Batch.FileNotFoundError
       end;
     Batch.disk_write := fun path =>
       if writable then Returns tt
       else Raises ("[Errno 30] Read-only file system: '" ++ path ++ "'")%string |}.

(** Two companies between blank lines, with spaces around the names. *)
Definition two_companies : list string :=
  [ String "010" EmptyString; "Acme"; "   "; "  Globex Corporation  ";
    String "009" EmptyString ].

(** A hundred and twenty times the same company. *)
Definition many_companies : list string := repeat "Acme" 120.

Definition disk_two : Batch.Disk := disk_with [ (input_file, two_companies) ] true.
Definition disk_many : Batch.Disk := disk_with [ (input_file, many_companies) ] true.
Definition disk_blank : Batch.Disk := disk_with [ (input_file, [ "  "; "" ]) ] true.
Definition disk_empty : Batch.Disk := disk_with [] true.
Definition disk_read_only : Batch.Disk := disk_with [ (input_file, many_companies) ] false.

(** Four results with one, three, no and three career URLs. *)
Definition four_results : list result :=
  [ mk_result "A" "https://a.example" ["https://a.example/jobs"];
    mk_result "B" "https://b.example"
              ["https://b.example/1"; "https://b.example/2"; "https://b.example/3"];
    mk_result "C" "Not found" [];
    mk_result "D" "https://d.example"
              ["https://d.example/1"; "https://d.example/2"; "https://d.example/3"] ].

End BatchFixtures.

(** * Properties *)

(** ** Text *)

Section TextFacts.
Import Text.

Lemma startswith_iff (needle hay : string) :
  startswith needle hay = true <-> exists post, hay = (needle ++ post)%string.
Proof.
  revert hay; induction needle as [|a n' IH]; intros hay; simpl.
  - split; [intros _; now exists hay | reflexivity].
  - destruct hay as [|b h']; simpl.
    + split; [discriminate | intros [post H]; discriminate].
    + rewrite andb_true_iff, Ascii.eqb_eq, IH. split.
      * intros [-> [post ->]]. now exists post.
      * intros [post H]. injection H as -> ->. split; [reflexivity | now exists post].
Qed.

Lemma contains_iff (needle hay : string) :
  contains needle hay = true <-> Substring needle hay.
Proof.
  unfold Substring. induction hay as [|b h' IH].
  - simpl. rewrite orb_false_r, startswith_iff. split.
    + intros [post H]. now exists EmptyString, post.
    + intros [pre [post H]]. destruct pre; simpl in H; [now exists post | discriminate].
  - cbn [contains]. rewrite orb_true_iff, startswith_iff, IH. split.
    + intros [[post H] | [pre [post H]]].
      * now exists EmptyString, post.
      * exists (String b pre), post. simpl. now rewrite H.
    + intros [pre [post H]]. destruct pre as [|c pre]; simpl in H.
      * left. now exists post.
      * right. injection H as _ H. now exists pre, post.
Qed.

Lemma mem_iff (x : string) (l : list string) : mem x l = true <-> In x l.
Proof.
  unfold mem. rewrite existsb_exists. split.
  - intros [y [Hy E]]. apply String.eqb_eq in E. now subst.
  - intros H. exists x. split; [assumption | apply String.eqb_refl].
Qed.

Lemma mem_false_iff (x : string) (l : list string) : mem x l = false <-> ~ In x l.
Proof.
  rewrite <- mem_iff. destruct (mem x l); split; congruence.
Qed.

(** [rstrip] only removes copies of [c] at the end. *)
Lemma rstrip_decompose (c : ascii) (s : string) :
  exists n, s = (rstrip c s ++ replicate n c)%string.
Proof.
  induction s as [|a t [n IH]]; simpl.
  - now exists 0.
  - destruct (rstrip c t) as [|b r] eqn:E.
    + destruct (Ascii.eqb_spec a c) as [-> | Hne].
      * exists (S n). simpl in *. now rewrite <- IH.
      * exists n. simpl in *. now rewrite <- IH.
    + exists n. simpl in *. now rewrite <- IH.
Qed.

Lemma append_nil_inv (s1 s2 : string) :
  (s1 ++ s2)%string = EmptyString -> s1 = EmptyString /\ s2 = EmptyString.
Proof. destruct s1; simpl; [auto | discriminate]. Qed.

(** What [rstrip] leaves does not end with [c]. *)
Lemma rstrip_not_endswith (c : ascii) (s : string) : ~ EndsWith c (rstrip c s).
Proof.
  unfold EndsWith. induction s as [|a t IH]; simpl.
  - intros [pre H]. destruct pre; discriminate.
  - destruct (rstrip c t) as [|b r] eqn:E.
    + destruct (Ascii.eqb_spec a c) as [-> | Hne].
      * intros [pre H]. destruct pre; discriminate.
      * intros [pre H]. destruct pre as [|p pre]; simpl in H.
        -- injection H as H. contradiction.
        -- injection H as _ H. destruct pre; discriminate.
    + intros [pre H]. destruct pre as [|p pre]; simpl in H.
      * discriminate.
      * injection H as _ H. apply IH. now exists pre.
Qed.

End TextFacts.

(** ** The monad *)

Section MonadFacts.
Context {A B : Type}.

Lemma value_bind (m : M A) (k : A -> M B) :
  value (bind m k) =
  match value m with Returns a => value (k a) | Raises e => Raises e end.
Proof.
  destruct m as [[a | e] t]; simpl; [destruct (k a) |]; reflexivity.
Qed.

Lemma events_bind (m : M A) (k : A -> M B) :
  events (bind m k) =
  events m ++ match value m with Returns a => events (k a) | Raises _ => [] end.
Proof.
  destruct m as [[a | e] t]; simpl; [destruct (k a) | rewrite app_nil_r]; reflexivity.
Qed.

Lemma value_try_except (m : M A) (handler : exn -> M A) :
  value (try_except m handler) =
  match value m with Returns a => Returns a | Raises e => value (handler e) end.
Proof.
  destruct m as [[a | e] t]; simpl; [| destruct (handler e)]; reflexivity.
Qed.

Lemma events_try_except (m : M A) (handler : exn -> M A) :
  events (try_except m handler) =
  events m ++ match value m with Returns _ => [] | Raises e => events (handler e) end.
Proof.
  destruct m as [[a | e] t]; simpl; [rewrite app_nil_r | destruct (handler e)]; reflexivity.
Qed.

Lemma bind_call (o : outcome A) (k : A -> M B) :
  bind (call o) k = match o with Returns a => k a | Raises e => (Raises e, []) end.
Proof.
  destruct o as [a | e]; simpl; [destruct (k a) |]; reflexivity.
Qed.

Lemma bind_ret (a : A) (k : A -> M B) : bind (ret a) k = k a.
Proof. unfold ret; simpl. destruct (k a); reflexivity. Qed.

End MonadFacts.

Lemma M_eta {A} (m : M A) : m = (value m, events m).
Proof. destruct m; reflexivity. Qed.

(** ** The two loops *)

Section LoopFacts.
Variable urljoin : string -> string -> outcome string.
Variable str_lower : string -> string.
Variable w : World.

Lemma append_new_not_nil (career_links : list string) (full_url : string) :
  append_new career_links full_url <> [].
Proof.
  unfold append_new. destruct (Text.mem full_url career_links) eqn:E.
  - intros ->. discriminate.
  - destruct career_links; discriminate.
Qed.

(** The scan talks to nobody. *)
Lemma scan_links_events (main_website : string) (all_links : list a_tag) :
  forall career_links,
    events (scan_links urljoin str_lower main_website all_links career_links) = [].
Proof.
  induction all_links as [|link rest IH]; intros acc; cbn [scan_links]; [reflexivity |].
  destruct ((is_career_link str_lower) link); [| apply IH].
  rewrite bind_call.
  destruct (getitem_href link); [| reflexivity].
  rewrite bind_call.
  destruct (urljoin main_website a); [apply IH | reflexivity].
Qed.

(** Without a career link the scan returns the list it started from. *)
Lemma scan_links_none (main_website : string) (all_links : list a_tag) :
  forall career_links,
    filter (is_career_link str_lower) all_links = [] ->
    value (scan_links urljoin str_lower main_website all_links career_links) =
    Returns career_links.
Proof.
  induction all_links as [|link rest IH]; intros acc H; cbn [scan_links filter] in *; [reflexivity |].
  destruct ((is_career_link str_lower) link); [discriminate | now apply IH].
Qed.

(** With a career link, or from a non-empty list, the scan cannot return
    the empty list. *)
Lemma scan_links_not_nil (main_website : string) (all_links : list a_tag) :
  forall career_links found,
    value (scan_links urljoin str_lower main_website all_links career_links) = Returns found ->
    career_links <> [] \/ filter (is_career_link str_lower) all_links <> [] ->
    found <> [].
Proof.
  induction all_links as [|link rest IH]; intros acc found Hv Hne; cbn [scan_links filter] in *.
  - injection Hv as <-. destruct Hne as [H | H]; [assumption | congruence].
  - destruct ((is_career_link str_lower) link).
    + rewrite bind_call in Hv.
      destruct (getitem_href link) as [href | e]; [| discriminate].
      rewrite bind_call in Hv.
      destruct (urljoin main_website href) as [full_url | e]; [| discriminate].
      apply (IH _ _ Hv). left. apply append_new_not_nil.
    + apply (IH _ _ Hv). assumption.
Qed.

(** When [urljoin] resolves every career link, the scan folds
    [append_new] over the resolved URLs. *)
Lemma scan_links_resolved (main_website : string) (all_links : list a_tag) :
  forall urls career_links,
    Resolved urljoin main_website (filter (is_career_link str_lower) all_links) urls ->
    value (scan_links urljoin str_lower main_website all_links career_links) =
    Returns (fold_left append_new urls career_links).
Proof.
  unfold Resolved.
  induction all_links as [|link rest IH]; intros urls acc HR; cbn [scan_links filter] in *.
  - inversion HR; subst. reflexivity.
  - destruct ((is_career_link str_lower) link).
    + inversion HR as [| l u ls us [href [Hh Hu]] Hrest]; subst.
      unfold getitem_href. rewrite Hh, bind_call, bind_call, Hu.
      simpl. now apply IH.
    + now apply IH.
Qed.

(** One probe: the HEAD is sent, and the URL is kept when the answer is
    a 200; an exception keeps the list as it is. *)
Lemma probe_once (test_url : string) (career_links : list string) :
  try_except
    (test_response <- session_head w test_url 5 ;;
     if (status_code test_response =? 200)%Z
     then ret (career_links ++ [test_url])
     else ret career_links)
    (fun _ => ret career_links)
  = (Returns (if probe_succeeds w test_url
              then career_links ++ [test_url] else career_links),
     [HEAD test_url 5]).
Proof.
  unfold session_head, probe_succeeds, try_except, bind, emit, call, ret.
  destruct (http_head w test_url) as [resp | e]; simpl; [| reflexivity].
  destruct (status_code resp =? 200)%Z; reflexivity.
Qed.

(** The probing loop: every pattern is probed, in order, and the URLs
    whose probe succeeds are appended. *)
Lemma probe_patterns_value (base_url : string) (patterns : list string) :
  forall career_links,
    value (probe_patterns w base_url patterns career_links) =
    Returns (career_links ++
             filter (probe_succeeds w)
                    (map (fun pattern => (base_url ++ pattern)%string) patterns)).
Proof.
  induction patterns as [|pattern rest IH]; intros acc; cbn [probe_patterns map filter].
  - now rewrite app_nil_r.
  - rewrite probe_once, value_bind. cbn [value fst]. rewrite IH.
    destruct (probe_succeeds w (base_url ++ pattern)); [| reflexivity].
    now rewrite <- app_assoc.
Qed.

Lemma probe_patterns_events (base_url : string) (patterns : list string) :
  forall career_links,
    events (probe_patterns w base_url patterns career_links) =
    map (fun pattern => HEAD (base_url ++ pattern)%string 5) patterns.
Proof.
  induction patterns as [|pattern rest IH]; intros acc; cbn [probe_patterns map];
    [reflexivity |].
  rewrite probe_once, events_bind. cbn [value events fst snd]. now rewrite IH.
Qed.

End LoopFacts.

(** ** The two methods, case by case *)

Section RunFacts.
Variable BeautifulSoup : string -> outcome (list a_tag).
Variable urljoin : string -> string -> outcome string.
Variable str_lower : string -> string.
Variable w : World.

Local Abbreviation search := (search_company_website BeautifulSoup w).
Local Abbreviation guarded := (scan_homepage_guarded BeautifulSoup urljoin str_lower w).
Local Abbreviation scan := (scan_links urljoin str_lower).
Local Abbreviation run := (find_career_page BeautifulSoup urljoin str_lower w).

(** The search, whatever happens, returns; it sends one GET and may
    print one line. *)
Lemma search_shape (company_name : string) :
  exists found tail,
    search company_name = (Returns found, GET (search_url company_name) 10 :: tail) /\
    filter is_HEAD tail = [].
Proof.
  unfold search_company_website, session_get, try_except, bind, emit, call, ret, print.
  destruct (http_get w (search_url company_name)) as [resp | e]; simpl.
  - destruct (BeautifulSoup (content resp)) as [soup | e]; simpl.
    + destruct (find_all_class soup "result__a") as [| first rest]; simpl.
      * now exists None, [].
      * destruct (Text.truthy_opt (attr_href first)); simpl; eexists; now exists [].
    + eexists; eexists; split; reflexivity.
  - eexists; eexists; split; reflexivity.
Qed.

Lemma probe_events_map (url : string) :
  map (fun pattern => HEAD (Text.rstrip "/" url ++ pattern)%string 5) career_patterns =
  map (fun u => HEAD u 5) (probe_urls url).
Proof. unfold probe_urls. now rewrite map_map. Qed.

(** Lines 53-104, once the page is fetched and parsed: what the scan
    returns decides the rest. *)
Lemma scan_homepage_fetched (company_name url : string) resp soup :
  http_get w url = Returns resp ->
  BeautifulSoup (content resp) = Returns soup ->
  scan_homepage BeautifulSoup urljoin str_lower w company_name url =
  match value (scan url (find_all_href soup) []) with
  | Returns [] =>
      (Returns {| company := company_name; main_website := url;
                  career_urls := firstn 3 (filter (probe_succeeds w) (probe_urls url)) |},
       GET url 10 :: map (fun u => HEAD u 5) (probe_urls url))
  | Returns (first :: others) =>
      (Returns {| company := company_name; main_website := url;
                  career_urls := firstn 3 (first :: others) |},
       [GET url 10])
  | Raises e => (Raises e, [GET url 10])
  end.
Proof.
  intros Hget Hparse. unfold scan_homepage, session_get.
  rewrite Hget. unfold emit at 1. unfold call at 1. cbn [bind app].
  rewrite Hparse, bind_call.
  rewrite (M_eta (scan url (find_all_href soup) [])), scan_links_events.
  destruct (value (scan url (find_all_href soup) [])) as [[| first others] | e].
  - cbn [bind].
    rewrite (M_eta (probe_patterns w _ _ _)), probe_patterns_value, probe_patterns_events.
    rewrite probe_events_map. unfold ret. cbn. reflexivity.
  - reflexivity.
  - reflexivity.
Qed.

Lemma on_exception_eq (company_name url : string) (e : exn) :
  Text.truthy url = true ->
  on_exception company_name (Some url) e =
  (Returns (failed company_name url), [error_line company_name e]).
Proof.
  intros Ht. unfold on_exception, or_error, print, emit, ret, bind. now rewrite Ht.
Qed.

Lemma guarded_get_raises (company_name url : string) (e : exn) :
  Text.truthy url = true ->
  http_get w url = Raises e ->
  guarded company_name url =
  (Returns (failed company_name url), [GET url 10; error_line company_name e]).
Proof.
  intros Ht Hget. unfold scan_homepage_guarded, scan_homepage, session_get.
  rewrite Hget. unfold emit at 1. unfold call at 1. cbn [bind try_except].
  now rewrite on_exception_eq.
Qed.

Lemma guarded_parse_raises (company_name url : string) resp (e : exn) :
  Text.truthy url = true ->
  http_get w url = Returns resp ->
  BeautifulSoup (content resp) = Raises e ->
  guarded company_name url =
  (Returns (failed company_name url), [GET url 10; error_line company_name e]).
Proof.
  intros Ht Hget Hparse. unfold scan_homepage_guarded, scan_homepage, session_get.
  rewrite Hget. unfold emit at 1. unfold call at 1. cbn [bind app].
  rewrite Hparse, bind_call. cbn [try_except]. now rewrite on_exception_eq.
Qed.

(** The guarded scan of a fetched and parsed page. *)
Lemma guarded_fetched (company_name url : string) resp soup :
  Text.truthy url = true ->
  http_get w url = Returns resp ->
  BeautifulSoup (content resp) = Returns soup ->
  guarded company_name url =
  match value (scan url (find_all_href soup) []) with
  | Returns [] =>
      (Returns {| company := company_name; main_website := url;
                  career_urls := firstn 3 (filter (probe_succeeds w) (probe_urls url)) |},
       GET url 10 :: map (fun u => HEAD u 5) (probe_urls url))
  | Returns (first :: others) =>
      (Returns {| company := company_name; main_website := url;
                  career_urls := firstn 3 (first :: others) |},
       [GET url 10])
  | Raises e =>
      (Returns (failed company_name url), [GET url 10; error_line company_name e])
  end.
Proof.
  intros Ht Hget Hparse. unfold scan_homepage_guarded.
  rewrite (scan_homepage_fetched _ _ _ _ Hget Hparse).
  destruct (value (scan url (find_all_href soup) [])) as [[| first others] | e];
    cbn [try_except]; [reflexivity | reflexivity |].
  now rewrite on_exception_eq.
Qed.

(** The guarded scan always returns, and reports the URL it was given. *)
Lemma guarded_returns (company_name url : string) :
  Text.truthy url = true ->
  exists urls, value (guarded company_name url) =
               Returns {| company := company_name; main_website := url;
                          career_urls := firstn 3 urls |}.
Proof.
  intros Ht.
  destruct (http_get w url) as [resp | e] eqn:Hget.
  - destruct (BeautifulSoup (content resp)) as [soup | e] eqn:Hparse.
    + rewrite (guarded_fetched _ _ _ _ Ht Hget Hparse).
      destruct (value (scan url (find_all_href soup) [])) as [[| first others] | e].
      * eexists; reflexivity.
      * eexists; reflexivity.
      * now exists [].
    + rewrite (guarded_parse_raises _ _ _ _ Ht Hget Hparse). now exists [].
  - rewrite (guarded_get_raises _ _ _ Ht Hget). now exists [].
Qed.

Lemma filter_is_HEAD_app (t1 t2 : trace) :
  filter is_HEAD t1 = [] -> filter is_HEAD (t1 ++ t2) = filter is_HEAD t2.
Proof. intros H. now rewrite filter_app, H. Qed.

(** With a homepage to fetch, a run is the guarded scan of that homepage,
    after a search that sends no HEAD. *)
Lemma run_homepage (company_name : string) (main_website : option string) home :
  homepage_of BeautifulSoup w company_name main_website = Some home ->
  Text.truthy home = true /\
  value (run company_name main_website) = value (guarded company_name home) /\
  filter is_HEAD (events (run company_name main_website)) =
  filter is_HEAD (events (guarded company_name home)).
Proof.
  unfold homepage_of, find_career_page.
  destruct (search_shape company_name) as (found & tail & Hs & Htail).
  assert (Resolve :
    match found with
    | Some url => if Text.truthy url then Some url else None
    | None => None
    end = Some home ->
    Text.truthy home = true /\
    value (try_except
             (found <- search company_name ;;
              match found with
              | Some url => if Text.truthy url then guarded company_name url
                            else ret (not_found company_name)
              | None => ret (not_found company_name)
              end)
             (on_exception company_name main_website)) =
    value (guarded company_name home) /\
    filter is_HEAD
      (events (try_except
             (found <- search company_name ;;
              match found with
              | Some url => if Text.truthy url then guarded company_name url
                            else ret (not_found company_name)
              | None => ret (not_found company_name)
              end)
             (on_exception company_name main_website))) =
    filter is_HEAD (events (guarded company_name home))).
  { rewrite Hs. destruct found as [url |]; [| discriminate].
    destruct (Text.truthy url) eqn:Ht; [| discriminate].
    intros [= ->]. split; [assumption |].
    destruct (guarded_returns company_name home Ht) as [urls Hr].
    rewrite value_try_except, events_try_except, value_bind, events_bind.
    cbn [value events fst snd]. rewrite Ht, Hr. split; [reflexivity |].
    rewrite app_nil_r. cbn [app filter is_HEAD].
    now apply filter_is_HEAD_app. }
  rewrite Hs. cbn [value fst].
  destruct main_website as [url |].
  - destruct (Text.truthy url) eqn:Ht.
    + intros [= ->]. auto.
    + rewrite Hs in Resolve. exact Resolve.
  - rewrite Hs in Resolve. exact Resolve.
Qed.

(** Without a homepage to fetch, a run ends with "Not found" and sends
    no HEAD. *)
Lemma run_not_found (company_name : string) (main_website : option string) :
  homepage_of BeautifulSoup w company_name main_website = None ->
  value (run company_name main_website) = Returns (not_found company_name) /\
  filter is_HEAD (events (run company_name main_website)) = [].
Proof.
  unfold homepage_of, find_career_page.
  destruct (search_shape company_name) as (found & tail & Hs & Htail).
  rewrite Hs. cbn [value fst].
  assert (Resolve :
    match found with
    | Some url => if Text.truthy url then Some url else None
    | None => None
    end = None ->
    value (try_except
             (found <- (Returns found, GET (search_url company_name) 10 :: tail) ;;
              match found with
              | Some url => if Text.truthy url then guarded company_name url
                            else ret (not_found company_name)
              | None => ret (not_found company_name)
              end)
             (on_exception company_name main_website)) =
    Returns (not_found company_name) /\
    filter is_HEAD
      (events (try_except
             (found <- (Returns found, GET (search_url company_name) 10 :: tail) ;;
              match found with
              | Some url => if Text.truthy url then guarded company_name url
                            else ret (not_found company_name)
              | None => ret (not_found company_name)
              end)
             (on_exception company_name main_website))) = []).
  { intros Hnone.
    rewrite value_try_except, events_try_except, value_bind, events_bind.
    cbn [value events fst snd].
    assert (Hk : match found with
                 | Some url => if Text.truthy url then guarded company_name url
                               else ret (not_found company_name)
                 | None => ret (not_found company_name)
                 end = ret (not_found company_name)).
    { destruct found as [url |]; [| reflexivity].
      destruct (Text.truthy url); [discriminate | reflexivity]. }
    rewrite Hk. cbn [ret value events fst snd]. split; [reflexivity |].
    rewrite !app_nil_r. cbn [filter is_HEAD]. assumption. }
  destruct main_website as [url |].
  - destruct (Text.truthy url) eqn:Ht; [discriminate | exact Resolve].
  - exact Resolve.
Qed.

End RunFacts.

(** ** Keeping the first occurrence *)

Section FirstSeen.

Lemma first_index_none (x : string) (l : list string) :
  first_index x l = None <-> ~ In x l.
Proof.
  induction l as [|y t IH]; simpl.
  - split; [intros _ [] | reflexivity].
  - destruct (String.eqb_spec x y) as [-> | Hne].
    + split; [discriminate | intros H; exfalso; apply H; now left].
    + destruct (first_index x t) as [i |].
      * split; [discriminate |]. intros H. exfalso. apply H. right.
        destruct (in_dec string_dec x t) as [Hin | Hnin]; [assumption |].
        apply IH in Hnin. discriminate.
      * split; [| reflexivity]. intros _ [-> | Hin]; [now apply Hne |].
        revert Hin. now apply IH.
Qed.

Lemma first_index_some (x : string) (l : list string) :
  forall i, first_index x l = Some i -> nth_error l i = Some x.
Proof.
  induction l as [|y t IH]; simpl; intros i H; [discriminate |].
  destruct (String.eqb_spec x y) as [-> | Hne].
  - injection H as <-. reflexivity.
  - destruct (first_index x t) as [k |]; [| discriminate].
    injection H as <-. simpl. now apply IH.
Qed.

Lemma first_index_lt (x : string) (l : list string) (i : nat) :
  first_index x l = Some i -> i < List.length l.
Proof.
  intros H. apply nth_error_Some. now rewrite (first_index_some _ _ _ H).
Qed.

Lemma first_index_in (x : string) (l : list string) :
  In x l -> exists i, first_index x l = Some i.
Proof.
  intros Hin. destruct (first_index x l) as [i |] eqn:E; [now exists i |].
  apply first_index_none in E. contradiction.
Qed.

Lemma first_index_app_old (x : string) (l l' : list string) (i : nat) :
  first_index x l = Some i -> first_index x (l ++ l') = Some i.
Proof.
  revert i; induction l as [|y t IH]; simpl; intros i H; [discriminate |].
  destruct (String.eqb x y); [assumption |].
  destruct (first_index x t) as [k |]; [| discriminate].
  now rewrite (IH k eq_refl).
Qed.

Lemma first_index_app_new (x : string) (l : list string) :
  ~ In x l -> first_index x (l ++ [x]) = Some (List.length l).
Proof.
  induction l as [|y t IH]; simpl; intros Hnin.
  - now rewrite String.eqb_refl.
  - destruct (String.eqb_spec x y) as [-> | Hne].
    + exfalso. apply Hnin. now left.
    + rewrite IH; [reflexivity |]. intros Hin. apply Hnin. now right.
Qed.

Lemma in_append_new (acc : list string) (x u : string) :
  In u (append_new acc x) <-> In u acc \/ u = x.
Proof.
  unfold append_new. destruct (Text.mem x acc) eqn:E.
  - apply mem_iff in E. split; [now left |]. intros [H | ->]; assumption.
  - rewrite in_app_iff. simpl. intuition congruence.
Qed.

Lemma first_seen_snoc (urls : list string) (x : string) :
  first_seen (urls ++ [x]) = append_new (first_seen urls) x.
Proof. unfold first_seen. now rewrite fold_left_app. Qed.

Lemma first_seen_in (urls : list string) (u : string) :
  In u (first_seen urls) <-> In u urls.
Proof.
  induction urls as [|x P IH] using rev_ind; [reflexivity |].
  rewrite first_seen_snoc, in_append_new, IH, in_app_iff. simpl. intuition congruence.
Qed.

Lemma first_seen_NoDup (urls : list string) : NoDup (first_seen urls).
Proof.
  induction urls as [|x P IH] using rev_ind; [constructor |].
  rewrite first_seen_snoc. unfold append_new.
  destruct (Text.mem x (first_seen P)) eqn:E; [assumption |].
  apply mem_false_iff in E. apply NoDup_app.
  - assumption.
  - constructor; [intros [] | constructor].
  - intros a Ha [<- | []]. contradiction.
Qed.

(** In [first_seen urls] a URL comes before another exactly when its
    first occurrence in [urls] does. *)
Lemma first_seen_order (urls : list string) :
  forall i j u v,
    nth_error (first_seen urls) i = Some u ->
    nth_error (first_seen urls) j = Some v ->
    i < j ->
    exists a b, first_index u urls = Some a /\ first_index v urls = Some b /\ a < b.
Proof.
  induction urls as [|x P IH] using rev_ind; intros i j u v Hu Hv Hij.
  - destruct i; discriminate.
  - rewrite first_seen_snoc in Hu, Hv. unfold append_new in Hu, Hv.
    destruct (Text.mem x (first_seen P)) eqn:E.
    + destruct (IH _ _ _ _ Hu Hv Hij) as (a & b & Ha & Hb & Hab).
      exists a, b. repeat split; [now apply first_index_app_old .. | assumption].
    + apply mem_false_iff in E. rewrite first_seen_in in E.
      assert (Hj : j < List.length (first_seen P ++ [x])).
      { apply nth_error_Some. congruence. }
      rewrite List.length_app in Hj. simpl in Hj.
      assert (Hi : i < List.length (first_seen P)) by lia.
      rewrite nth_error_app1 in Hu by assumption.
      destruct (Nat.eq_dec j (List.length (first_seen P))) as [-> | Hne].
      * rewrite nth_error_app2, Nat.sub_diag in Hv by lia. injection Hv as <-.
        assert (Hin : In u P).
        { apply first_seen_in. eapply nth_error_In. eassumption. }
        destruct (first_index_in _ _ Hin) as [a Ha].
        exists a, (List.length P). repeat split.
        -- now apply first_index_app_old.
        -- now apply first_index_app_new.
        -- eapply first_index_lt. eassumption.
      * rewrite nth_error_app1 in Hv by lia.
        destruct (IH _ _ _ _ Hu Hv Hij) as (a & b & Ha & Hb & Hab).
        exists a, b. repeat split; [now apply first_index_app_old .. | assumption].
Qed.

End FirstSeen.

(** ** One career link, and none *)

Section SingleLink.
Variable urljoin : string -> string -> outcome string.
Variable str_lower : string -> string.

(** With exactly one career link on the page, the scan returns what
    [urljoin] makes of it, or raises what [urljoin] raises. *)
Lemma scan_links_single (main_website : string) (all_links : list a_tag)
      (link : a_tag) (href : string) :
  forall career_links,
    filter (is_career_link str_lower) all_links = [link] ->
    attr_href link = Some href ->
    value (scan_links urljoin str_lower main_website all_links career_links) =
    match urljoin main_website href with
    | Returns full_url => Returns (append_new career_links full_url)
    | Raises e => Raises e
    end.
Proof.
  induction all_links as [|link0 rest IH]; intros acc Hf Hh;
    cbn [scan_links filter] in *; [discriminate |].
  destruct ((is_career_link str_lower) link0).
  - injection Hf as -> Hrest. unfold getitem_href. rewrite Hh, bind_call, bind_call.
    destruct (urljoin main_website href) as [full_url | e]; [| reflexivity].
    now apply scan_links_none.
  - now apply IH.
Qed.

(** The scan returns the empty list exactly when no link is a career
    link. *)
Lemma scan_links_nil_iff (main_website : string) (all_links : list a_tag) :
  value (scan_links urljoin str_lower main_website all_links []) = Returns [] <->
  filter (is_career_link str_lower) all_links = [].
Proof.
  split.
  - intros Hv. destruct (filter (is_career_link str_lower) all_links) as [|link ls] eqn:E;
      [reflexivity |].
    exfalso. apply (scan_links_not_nil urljoin str_lower _ _ _ _ Hv); [| reflexivity].
    right. rewrite E. discriminate.
  - intros H. now apply scan_links_none.
Qed.

Lemma probe_urls_not_nil (main_website : string) :
  map (fun u => HEAD u 5) (probe_urls main_website) <> [].
Proof. unfold probe_urls, career_patterns. discriminate. Qed.

Lemma filter_is_HEAD_probes (urls : list string) :
  filter is_HEAD (map (fun u => HEAD u 5) urls) = map (fun u => HEAD u 5) urls.
Proof. induction urls as [|u t IH]; simpl; [reflexivity | now rewrite IH]. Qed.

End SingleLink.

(** ** What the scan keeps *)

Section KeywordScan.
Variable urljoin : string -> string -> outcome string.
Variable str_lower : string -> string.






End KeywordScan.

(** * The claims *)

Section Claims.
Variable BeautifulSoup : string -> outcome (list a_tag).
Variable urljoin : string -> string -> outcome string.
Variable str_lower : string -> string.

Local Abbreviation run := (find_career_page BeautifulSoup urljoin str_lower).
Local Abbreviation homepage := (homepage_of BeautifulSoup).

(** C1 (amended).  When the GET of the homepage raises, or the parsing of
    its body does, [find_career_page] returns a result whose
    [main_website] is the homepage it tried to fetch (the caller's or the
    one the search gave) and whose [career_urls] is empty. *)
Theorem C1_fetch_failure_keeps_homepage
  (w : World) (company_name : string) (website : option string) (home : string) :
  homepage w company_name website = Some home ->
  (exists e, http_get w home = Raises e) \/
  (exists resp e, http_get w home = Returns resp /\
                  BeautifulSoup (content resp) = Raises e) ->
  value (run w company_name website) =
  Returns {| company := company_name; main_website := home; career_urls := [] |}.
Proof.
  intros Hhome Hfail.
  destruct (run_homepage _ urljoin str_lower _ _ _ _ Hhome) as (Ht & Hv & _).
  rewrite Hv.
  destruct Hfail as [[e Hget] | (resp & e & Hget & Hparse)].
  - now rewrite (guarded_get_raises _ _ _ _ _ _ _ Ht Hget).
  - now rewrite (guarded_parse_raises _ _ _ _ _ _ _ _ Ht Hget Hparse).
Qed.

(** C2.  Whatever the company, the homepage given and the network,
    [find_career_page] returns a result, and its [career_urls] has at most
    three entries. *)
Theorem C2_at_most_three_urls
  (w : World) (company_name : string) (website : option string) :
  exists r, value (run w company_name website) = Returns r /\
            List.length (career_urls r) <= 3.
Proof.
  destruct (homepage w company_name website) as [home |] eqn:Hhome.
  - destruct (run_homepage _ urljoin str_lower _ _ _ _ Hhome) as (Ht & Hv & _).
    destruct (guarded_returns BeautifulSoup urljoin str_lower w company_name home Ht) as [urls Hr].
    eexists. split; [rewrite Hv; exact Hr |]. cbn [career_urls]. apply firstn_le_length.
  - destruct (run_not_found _ urljoin str_lower _ _ _ Hhome) as [Hv _].
    eexists. split; [exact Hv |]. simpl. lia.
Qed.

(** C3.  On a network whose client refuses the strings "Not found" and
    "Error" as URLs (as [requests] does: neither has a scheme), a result
    whose [main_website] is one of the two sentinels has an empty
    [career_urls]. *)
Theorem C3_sentinel_means_no_urls
  (w : World) (company_name : string) (website : option string) :
  (forall s, is_sentinel s = true -> exists e, http_get w s = Raises e) ->
  exists r, value (run w company_name website) = Returns r /\
            (is_sentinel (main_website r) = true -> career_urls r = []).
Proof.
  intros Hrefuse.
  destruct (homepage w company_name website) as [home |] eqn:Hhome.
  - destruct (run_homepage _ urljoin str_lower _ _ _ _ Hhome) as (Ht & Hv & _).
    rewrite Hv. destruct (is_sentinel home) eqn:Hs.
    + destruct (Hrefuse home Hs) as [e Hget].
      rewrite (guarded_get_raises _ _ _ _ _ _ _ Ht Hget).
      eexists. split; [reflexivity | reflexivity].
    + destruct (guarded_returns BeautifulSoup urljoin str_lower w company_name home Ht) as [urls Hr].
      eexists. split; [exact Hr |]. simpl. congruence.
  - destruct (run_not_found _ urljoin str_lower _ _ _ Hhome) as [Hv _].
    eexists. split; [exact Hv | reflexivity].
Qed.

(** C4.  Once the homepage is fetched and parsed, HEAD probes are sent if
    and only if the scan finds no career link among the links of the page;
    then all the patterns are probed.  With exactly one career link no HEAD
    is sent and [career_urls] is what the scan made of that link. *)
Theorem C4_probing_iff_scan_finds_nothing
  (w : World) (company_name : string) (website : option string)
  (home : string) (resp : response) (soup : list a_tag) :
  homepage w company_name website = Some home ->
  http_get w home = Returns resp ->
  BeautifulSoup (content resp) = Returns soup ->
  let heads := filter is_HEAD (events (run w company_name website)) in
  let career := filter (is_career_link str_lower) (find_all_href soup) in
  (heads <> [] <-> career = []) /\
  (career = [] -> heads = map (fun u => HEAD u 5) (probe_urls home)) /\
  (forall link href,
      career = [link] -> attr_href link = Some href ->
      heads = [] /\
      exists r, value (run w company_name website) = Returns r /\
                career_urls r = match urljoin home href with
                                | Returns full_url => [full_url]
                                | Raises _ => []
                                end).
Proof.
  intros Hhome Hget Hparse heads career. subst heads career.
  destruct (run_homepage _ urljoin str_lower _ _ _ _ Hhome) as (Ht & Hv & He).
  rewrite He, Hv, (guarded_fetched _ _ _ _ _ _ _ _ Ht Hget Hparse).
  pose proof (scan_links_nil_iff urljoin str_lower home (find_all_href soup)) as Hnil.
  split; [| split].
  - destruct (value (scan_links urljoin str_lower home (find_all_href soup) []))
      as [[| first others] | e]; cbn [events snd filter is_HEAD error_line].
    + rewrite filter_is_HEAD_probes. split; [intros _; now apply Hnil |].
      intros _. apply probe_urls_not_nil.
    + split; [intros H; now contradiction H |].
      intros H. apply Hnil in H. discriminate.
    + split; [intros H; now contradiction H |].
      intros H. apply Hnil in H. discriminate.
  - intros Hnone. apply Hnil in Hnone. rewrite Hnone. cbn [events snd filter is_HEAD].
    apply filter_is_HEAD_probes.
  - intros link href Hone Hh.
    rewrite (scan_links_single urljoin str_lower _ _ _ _ [] Hone Hh).
    destruct (urljoin home href) as [full_url | e]; cbn.
    + split; [reflexivity |]. eexists. split; reflexivity.
    + split; [reflexivity |]. eexists. split; reflexivity.
Qed.


(** C6 (amended).  When the fetched page has at least one career link and
    every career link resolves, [career_urls] is the first three entries of
    the list of the distinct resolved URLs in the order of their first
    occurrence on the page.  So a
    URL that several career links resolve to occurs at most once in
    [career_urls]: once, in first-occurrence order, when it is among the
    first three distinct URLs, and not at all otherwise. *)
Theorem C6_first_three_distinct_in_scan_order
  (w : World) (company_name : string) (website : option string)
  (home : string) (resp : response) (soup : list a_tag) (urls : list string) :
  homepage w company_name website = Some home ->
  http_get w home = Returns resp ->
  BeautifulSoup (content resp) = Returns soup ->
  Resolved urljoin home (filter (is_career_link str_lower) (find_all_href soup)) urls ->
  urls <> [] ->
  exists r distinct,
    value (run w company_name website) = Returns r /\
    career_urls r = firstn 3 distinct /\
    NoDup distinct /\
    (forall u, In u distinct <-> In u urls) /\
    (forall i j u v,
        nth_error distinct i = Some u -> nth_error distinct j = Some v -> i < j ->
        exists a b, first_index u urls = Some a /\ first_index v urls = Some b /\ a < b) /\
    NoDup (career_urls r).
Proof.
  intros Hhome Hget Hparse Hres Hne.
  destruct (run_homepage _ urljoin str_lower _ _ _ _ Hhome) as (Ht & Hv & _).
  rewrite Hv, (guarded_fetched _ _ _ _ _ _ _ _ Ht Hget Hparse).
  rewrite (scan_links_resolved urljoin str_lower _ _ _ [] Hres). fold (first_seen urls).
  assert (Hnd : NoDup (firstn 3 (first_seen urls))).
  { apply (NoDup_app_remove_r _ (skipn 3 (first_seen urls))).
    rewrite firstn_skipn. apply first_seen_NoDup. }
  destruct (first_seen urls) as [| first others] eqn:E.
  - exfalso. destruct urls as [| u us]; [now apply Hne |].
    assert (Hin : In u (first_seen (u :: us))) by (apply first_seen_in; now left).
    rewrite E in Hin. destruct Hin.
  - exists {| company := company_name; main_website := home;
              career_urls := firstn 3 (first :: others) |}, (first :: others).
    rewrite <- E. repeat split.
    + apply first_seen_NoDup.
    + apply first_seen_in.
    + apply first_seen_in.
    + apply first_seen_order.
    + cbn [career_urls]. rewrite E. exact Hnd.
Qed.

(** C7 (amended).  In the fallback path every pattern is probed, in order,
    and [career_urls] is the first three of the probed URLs whose HEAD came
    back with status 200; a probe that raises or answers another status is
    left out and the probing goes on.  In particular, when only the probe
    of [/jobs] answers 200 and the others answer 404, [career_urls] is that
    one URL. *)
Theorem C7_fallback_keeps_first_three_200
  (w : World) (company_name : string) (website : option string)
  (home : string) (resp : response) (soup : list a_tag) :
  homepage w company_name website = Some home ->
  http_get w home = Returns resp ->
  BeautifulSoup (content resp) = Returns soup ->
  filter (is_career_link str_lower) (find_all_href soup) = [] ->
  exists r,
    value (run w company_name website) = Returns r /\
    career_urls r = firstn 3 (filter (probe_succeeds w) (probe_urls home)) /\
    filter is_HEAD (events (run w company_name website)) =
      map (fun u => HEAD u 5) (probe_urls home) /\
    (forall url, probe_succeeds w url = true <->
                 exists answer, http_head w url = Returns answer /\
                                status_code answer = 200%Z) /\
    ((forall pattern, In pattern career_patterns ->
        exists answer,
          http_head w (Text.rstrip "/" home ++ pattern)%string = Returns answer /\
          status_code answer = if String.eqb pattern "/jobs" then 200%Z else 404%Z) ->
     career_urls r = [(Text.rstrip "/" home ++ "/jobs")%string]).
Proof.
  intros Hhome Hget Hparse Hnone.
  destruct (run_homepage _ urljoin str_lower _ _ _ _ Hhome) as (Ht & Hv & He).
  rewrite He, Hv, (guarded_fetched _ _ _ _ _ _ _ _ Ht Hget Hparse).
  rewrite (scan_links_none urljoin str_lower _ _ [] Hnone).
  eexists. split; [reflexivity |]. cbn [career_urls events snd filter is_HEAD].
  split; [reflexivity |]. split; [apply filter_is_HEAD_probes |]. split.
  - intros url. unfold probe_succeeds.
    destruct (http_head w url) as [answer | e].
    + rewrite Z.eqb_eq. split.
      * intros H. now exists answer.
      * intros [answer' [[= <-] H]]. assumption.
    + split; [discriminate | intros [answer [H _]]; discriminate].
  - intros Hscenario. unfold probe_urls.
    assert (Hf : filter (probe_succeeds w)
                   (map (fun pattern => (Text.rstrip "/" home ++ pattern)%string)
                        career_patterns) =
                 map (fun pattern => (Text.rstrip "/" home ++ pattern)%string)
                     (filter (fun pattern => String.eqb pattern "/jobs") career_patterns)).
    { generalize Hscenario. generalize career_patterns as patterns.
      induction patterns as [| pattern rest IH]; intros Hs; [reflexivity |].
      cbn [map filter].
      destruct (Hs pattern (or_introl eq_refl)) as (answer & Hhead & Hstatus).
      unfold probe_succeeds at 1. rewrite Hhead, Hstatus.
      rewrite IH by (intros p Hp; apply Hs; now right).
      destruct (String.eqb pattern "/jobs"); reflexivity. }
    rewrite Hf. reflexivity.
Qed.

(** C8.  [search_company_website] always returns and never raises; it
    returns [None] when the search request raises, when the parsing of the
    result page raises, and when the page has no [a] element of class
    [result__a]. *)
Theorem C8_search_returns_none_on_failure
  (w : World) (company_name : string) :
  let found := value (search_company_website BeautifulSoup w company_name) in
  (exists url, found = Returns url) /\
  ((exists e, http_get w (search_url company_name) = Raises e) ->
   found = Returns None) /\
  (forall answer, http_get w (search_url company_name) = Returns answer ->
     (exists e, BeautifulSoup (content answer) = Raises e) ->
     found = Returns None) /\
  (forall answer soup,
     http_get w (search_url company_name) = Returns answer ->
     BeautifulSoup (content answer) = Returns soup ->
     (forall a, In a soup -> ~ In "result__a" (attr_class a)) ->
     found = Returns None).
Proof.
  intros found. subst found. split; [| split; [| split]].
  - destruct (search_shape BeautifulSoup w company_name) as (url & tail & Hs & _).
    exists url. now rewrite Hs.
  - intros [e Hget].
    unfold search_company_website, session_get, try_except, bind, emit, call, ret, print.
    now rewrite Hget.
  - intros answer Hget [e Hparse].
    unfold search_company_website, session_get, try_except, bind, emit, call, ret, print.
    rewrite Hget. cbn. now rewrite Hparse.
  - intros answer soup Hget Hparse Hno.
    assert (Hnil : find_all_class soup "result__a" = []).
    { unfold find_all_class. clear Hparse. revert Hno.
      induction soup as [| a rest IH]; intros Hno; [reflexivity |].
      cbn [filter]. destruct (Text.mem "result__a" (attr_class a)) eqn:E.
      - apply mem_iff in E. exfalso. apply (Hno a); [now left | assumption].
      - apply IH. intros b Hb. apply Hno. now right. }
    unfold search_company_website, session_get, try_except, bind, emit, call, ret, print.
    rewrite Hget. cbn. rewrite Hparse, Hnil. reflexivity.
Qed.

(** C9.  Two runs for the same company that fetch the same homepage, get
    the same answer to the GET of it and the same answers to the HEAD of
    each probed URL, return the same result, whatever else the two
    networks disagree on. *)
Theorem C9_same_inputs_same_result
  (w1 w2 : World) (company_name : string) (website : option string) (home : string) :
  homepage w1 company_name website = Some home ->
  homepage w2 company_name website = Some home ->
  http_get w1 home = http_get w2 home ->
  (forall url, In url (probe_urls home) -> http_head w1 url = http_head w2 url) ->
  value (run w1 company_name website) = value (run w2 company_name website).
Proof.
  intros Hhome1 Hhome2 Hget Hhead.
  destruct (run_homepage _ urljoin str_lower _ _ _ _ Hhome1) as (Ht & Hv1 & _).
  destruct (run_homepage _ urljoin str_lower _ _ _ _ Hhome2) as (_ & Hv2 & _).
  rewrite Hv1, Hv2.
  destruct (http_get w2 home) as [resp | e] eqn:Hget2.
  - destruct (BeautifulSoup (content resp)) as [soup | e] eqn:Hparse.
    + rewrite (guarded_fetched _ _ _ _ _ _ _ _ Ht Hget Hparse).
      rewrite (guarded_fetched _ _ _ _ _ _ _ _ Ht Hget2 Hparse).
      destruct (value (scan_links urljoin str_lower home (find_all_href soup) []))
        as [[| first others] | e]; [| reflexivity | reflexivity].
      cbn [value fst]. do 3 f_equal. apply filter_ext_in.
      intros url Hin. unfold probe_succeeds. now rewrite (Hhead url Hin).
    + rewrite (guarded_parse_raises _ _ _ _ _ _ _ _ Ht Hget Hparse).
      now rewrite (guarded_parse_raises _ _ _ _ _ _ _ _ Ht Hget2 Hparse).
  - rewrite (guarded_get_raises _ _ _ _ _ _ _ Ht Hget).
    now rewrite (guarded_get_raises _ _ _ _ _ _ _ Ht Hget2).
Qed.

(** C10.  In the fallback path the probed URLs are the homepage URL, path
    included, without its trailing slashes, followed by each pattern.  For
    the homepage [https://x.com/en/home] the probes go to
    [https://x.com/en/home/careers] and so on, below that path. *)
Theorem C10_probes_extend_the_homepage_url
  (w : World) (company_name : string) (website : option string)
  (home : string) (resp : response) (soup : list a_tag) :
  homepage w company_name website = Some home ->
  http_get w home = Returns resp ->
  BeautifulSoup (content resp) = Returns soup ->
  filter (is_career_link str_lower) (find_all_href soup) = [] ->
  let heads := filter is_HEAD (events (run w company_name website)) in
  heads = map (fun pattern => HEAD (Text.rstrip "/" home ++ pattern)%string 5)
              career_patterns /\
  (exists n, home = (Text.rstrip "/" home ++ Text.replicate n "/")%string) /\
  ~ Text.EndsWith "/" (Text.rstrip "/" home) /\
  (home = "https://x.com/en/home" ->
   heads = [ HEAD "https://x.com/en/home/careers" 5;
             HEAD "https://x.com/en/home/career" 5;
             HEAD "https://x.com/en/home/jobs" 5;
             HEAD "https://x.com/en/home/job-opportunities" 5;
             HEAD "https://x.com/en/home/work-with-us" 5;
             HEAD "https://x.com/en/home/join-us" 5;
             HEAD "https://x.com/en/home/employment" 5;
             HEAD "https://x.com/en/home/opportunities" 5;
             HEAD "https://x.com/en/home/hiring" 5;
             HEAD "https://x.com/en/home/openings" 5 ]).
Proof.
  intros Hhome Hget Hparse Hnone heads.
  assert (Hheads : heads =
            map (fun pattern => HEAD (Text.rstrip "/" home ++ pattern)%string 5)
                career_patterns).
  { subst heads.
    destruct (run_homepage _ urljoin str_lower _ _ _ _ Hhome) as (Ht & _ & He).
    rewrite He, (guarded_fetched _ _ _ _ _ _ _ _ Ht Hget Hparse).
    rewrite (scan_links_none urljoin str_lower _ _ [] Hnone).
    cbn [events snd filter is_HEAD].
    rewrite filter_is_HEAD_probes. unfold probe_urls. now rewrite map_map. }
  split; [exact Hheads |]. split; [apply rstrip_decompose |].
  split; [apply rstrip_not_endswith |].
  intros ->. rewrite Hheads. reflexivity.
Qed.

End Claims.

(** * The claims on concrete pages and networks *)

Section Scenarios.
Import Fixtures.

Local Abbreviation run := (find_career_page parser urljoin_origin Text.lower).

(** C1, as stated, fails: the search finds the homepage of Acme, the GET of
    that homepage times out, and the result carries the homepage, not
    "Error". *)
Lemma C1_timeout_result_is_not_Error :
  homepage_of parser net_timeout "Acme" None = Some acme /\
  http_get net_timeout acme = Raises "Read timed out. (read timeout=10)" /\
  value (run net_timeout "Acme" None) = Returns (failed "Acme" acme) /\
  ~ (exists r, value (run net_timeout "Acme" None) = Returns r /\
               main_website r = sentinel_error /\ career_urls r = []).
Proof.
  repeat split; try reflexivity.
  intros (r & Hr & Hm & _). vm_compute in Hr. injection Hr as <-. discriminate.
Qed.

(** C1 (amended) on that run. *)
Lemma C1_fetch_failure_keeps_homepage_witness :
  value (run net_timeout "Acme" None) =
  Returns {| company := "Acme"; main_website := acme; career_urls := [] |}.
Proof.
  apply (C1_fetch_failure_keeps_homepage parser urljoin_origin Text.lower net_timeout "Acme" None acme).
  - reflexivity.
  - left. eexists. reflexivity.
Defined.

(** The networks of the fixtures refuse the two sentinels as URLs. *)
Lemma network_refuses_sentinels pages heads :
  forall s, is_sentinel s = true -> exists e, http_get (network pages heads) s = Raises e.
Proof.
  intros s H. unfold is_sentinel in H. apply orb_true_iff in H.
  destruct H as [H | H]; apply String.eqb_eq in H; subst; eexists; reflexivity.
Defined.

(** C3 when the caller passes "Error" as the homepage. *)
Lemma C3_sentinel_means_no_urls_witness :
  exists r, value (run net_careers "Acme" (Some "Error")) = Returns r /\
            (is_sentinel (main_website r) = true -> career_urls r = []).
Proof.
  apply (C3_sentinel_means_no_urls parser urljoin_origin Text.lower net_careers "Acme" (Some "Error")).
  apply network_refuses_sentinels.
Defined.

(** C4 on the page with an About and a Careers link: no HEAD is sent. *)
Lemma C4_probing_iff_scan_finds_nothing_witness :
  filter is_HEAD (events (run net_careers "Acme" None)) = [] /\
  exists r, value (run net_careers "Acme" None) = Returns r /\
            career_urls r = ["https://acme.example/careers"].
Proof.
  pose proof (C4_probing_iff_scan_finds_nothing parser urljoin_origin Text.lower net_careers
                "Acme" None acme (mk_response 200 body_about_careers)
                [link "/about" "About"; link "/careers" "Careers"]
                eq_refl eq_refl eq_refl) as (_ & _ & Hone).
  exact (Hone (link "/careers" "Careers") "/careers" eq_refl eq_refl).
Defined.



(** C6, as stated, fails: the fourth and the fifth link of the page are
    career links that resolve to the same URL, and that URL is not in
    [career_urls] at all. *)
Lemma C6_repeated_url_beyond_the_third_is_absent :
  let links := [ link "/jobs1" "1"; link "/jobs2" "2"; link "/jobs3" "3";
                 link "/jobs4" "4"; link "/jobs4" "4" ] in
  http_get net_five acme = ok body_five /\
  parser body_five = Returns links /\
  filter (is_career_link Text.lower) (find_all_href links) = links /\
  urljoin_origin acme "/jobs4" = Returns "https://acme.example/jobs4" /\
  exists r, value (run net_five "Acme" (Some acme)) = Returns r /\
            count_occ string_dec (career_urls r) "https://acme.example/jobs4" = 0.
Proof.
  repeat split; try reflexivity. eexists. split; reflexivity.
Qed.

(** C6 (amended) on a page whose first and third link go to the same
    place. *)
Lemma C6_first_three_distinct_in_scan_order_witness :
  exists r distinct,
    value (run net_twice "Acme" (Some acme)) = Returns r /\
    career_urls r = firstn 3 distinct /\
    NoDup distinct /\
    (forall u, In u distinct <->
               In u [ "https://acme.example/careers"; "https://acme.example/jobs";
                      "https://acme.example/careers" ]) /\
    (forall i j u v,
        nth_error distinct i = Some u -> nth_error distinct j = Some v -> i < j ->
        exists a b,
          first_index u [ "https://acme.example/careers"; "https://acme.example/jobs";
                          "https://acme.example/careers" ] = Some a /\
          first_index v [ "https://acme.example/careers"; "https://acme.example/jobs";
                          "https://acme.example/careers" ] = Some b /\ a < b) /\
    NoDup (career_urls r).
Proof.
  apply (C6_first_three_distinct_in_scan_order parser urljoin_origin Text.lower net_twice
           "Acme" (Some acme) acme (mk_response 200 body_twice)
           [ link "/careers" "Careers"; link "/jobs" "Jobs";
             link "/careers" "Join Us Today" ]).
  - reflexivity.
  - reflexivity.
  - reflexivity.
  - unfold Resolved.
    change (filter (is_career_link Text.lower)
              (find_all_href [ link "/careers" "Careers"; link "/jobs" "Jobs";
                               link "/careers" "Join Us Today" ]))
      with [ link "/careers" "Careers"; link "/jobs" "Jobs";
             link "/careers" "Join Us Today" ].
    repeat (constructor; [eexists; split; reflexivity |]). constructor.
  - discriminate.
Defined.

(** C7, as stated, fails: the probe of [/job-opportunities] answers 200 and
    its URL is not in [career_urls], which stops at three. *)
Lemma C7_fourth_200_is_left_out :
  let url := "https://acme.example/job-opportunities" in
  let links := [link "/about" "About"; mk_a None [] "Jobs"] in
  http_get net_all_200 acme = ok body_plain /\
  parser body_plain = Returns links /\
  filter (is_career_link Text.lower) (find_all_href links) = [] /\
  In url (probe_urls acme) /\
  http_head net_all_200 url = Returns (mk_response 200 "") /\
  exists r, value (run net_all_200 "Acme" (Some acme)) = Returns r /\
            ~ In url (career_urls r).
Proof.
  repeat split; try reflexivity.
  - simpl. tauto.
  - eexists. split; [reflexivity |]. simpl. intuition discriminate.
Qed.

(** C7 (amended) on two networks where only [/jobs] answers 200: one where
    another probe raises, one where all the others answer 404. *)
Lemma C7_fallback_keeps_first_three_200_witness :
  (exists r, value (run net_jobs_only "Acme" (Some "https://acme.example/")) = Returns r /\
             career_urls r = ["https://acme.example/jobs"]) /\
  (exists r, value (run net_jobs_else_404 "Acme" (Some "https://acme.example/")) = Returns r /\
             career_urls r = ["https://acme.example/jobs"]).
Proof.
  split.
  - destruct (C7_fallback_keeps_first_three_200 parser urljoin_origin Text.lower net_jobs_only
                "Acme" (Some "https://acme.example/") "https://acme.example/"
                (mk_response 200 body_plain)
                [link "/about" "About"; mk_a None [] "Jobs"]
                eq_refl eq_refl eq_refl eq_refl) as (r & Hr & Hurls & _).
    exists r. split; [exact Hr | exact Hurls].
  - destruct (C7_fallback_keeps_first_three_200 parser urljoin_origin Text.lower net_jobs_else_404
                "Acme" (Some "https://acme.example/") "https://acme.example/"
                (mk_response 200 body_plain)
                [link "/about" "About"; mk_a None [] "Jobs"]
                eq_refl eq_refl eq_refl eq_refl) as (r & Hr & _ & _ & _ & Hscenario).
    exists r. split; [exact Hr |]. apply Hscenario.
    intros pattern Hin. unfold career_patterns in Hin. simpl in Hin.
    repeat (destruct Hin as [<- | Hin]; [eexists; split; reflexivity |]).
    destruct Hin.
Defined.

(** C8 when the search request itself raises. *)
Lemma C8_search_returns_none_on_failure_witness :
  value (search_company_website parser net_down "Acme") = Returns None.
Proof.
  destruct (C8_search_returns_none_on_failure parser net_down "Acme") as (_ & Hraise & _).
  apply Hraise. eexists. reflexivity.
Defined.

(** C9 on two networks that differ on the search page. *)
Lemma C9_same_inputs_same_result_witness :
  http_get net_jobs_only (search_url "Acme") <> http_get net_jobs_only_wider (search_url "Acme") /\
  value (run net_jobs_only "Acme" (Some acme)) =
  value (run net_jobs_only_wider "Acme" (Some acme)).
Proof.
  split; [discriminate |].
  apply (C9_same_inputs_same_result parser urljoin_origin Text.lower net_jobs_only net_jobs_only_wider
           "Acme" (Some acme) acme).
  - reflexivity.
  - reflexivity.
  - reflexivity.
  - intros url Hin. unfold probe_urls, career_patterns in Hin. simpl in Hin.
    repeat (destruct Hin as [<- | Hin]; [reflexivity |]). destruct Hin.
Defined.

(** C10 on the homepage [https://x.com/en/home]. *)
Lemma C10_probes_extend_the_homepage_url_witness :
  filter is_HEAD (events (run net_x "X" (Some x_home))) =
  [ HEAD "https://x.com/en/home/careers" 5;
    HEAD "https://x.com/en/home/career" 5;
    HEAD "https://x.com/en/home/jobs" 5;
    HEAD "https://x.com/en/home/job-opportunities" 5;
    HEAD "https://x.com/en/home/work-with-us" 5;
    HEAD "https://x.com/en/home/join-us" 5;
    HEAD "https://x.com/en/home/employment" 5;
    HEAD "https://x.com/en/home/opportunities" 5;
    HEAD "https://x.com/en/home/hiring" 5;
    HEAD "https://x.com/en/home/openings" 5 ].
Proof.
  destruct (C10_probes_extend_the_homepage_url parser urljoin_origin Text.lower net_x
              "X" (Some x_home) x_home (mk_response 200 body_plain)
              [link "/about" "About"; mk_a None [] "Jobs"]
              eq_refl eq_refl eq_refl eq_refl) as (_ & _ & _ & Hexample).
  exact (Hexample eq_refl).
Defined.

End Scenarios.

(** * Beyond the claims: the batch layer *)

(** ** File names and rows of [save_results] *)

Section SaveFacts.
Import Batch.

Lemma append_length (s1 s2 : string) :
  String.length (s1 ++ s2) = String.length s1 + String.length s2.
Proof. induction s1 as [|c t IH]; simpl; [reflexivity | now rewrite IH]. Qed.

(** As long as the two replacements agree, no [.txt] was met. *)
Lemma replace_from_agree (s : string) :
  forall k,
    replace_from ".txt" ".csv" k s = replace_from ".txt" ".json" k s ->
    Text.contains ".txt" (drop k s) = false.
Proof.
  induction s as [|c t IH]; intros k H.
  - destruct k; reflexivity.
  - destruct k as [|k]; cbn [replace_from drop] in *.
    + cbn [Text.contains].
      destruct (Text.startswith ".txt" (String c t)) eqn:E.
      * simpl in H. discriminate.
      * injection H as H. apply (IH 0) in H. simpl in H. now rewrite H.
    + now apply IH.
Qed.

(** X3.  The CSV file and the JSON file of a [save_results] never have
    the same name, whatever the file name given. *)
Theorem X3_csv_and_json_names_differ (filename : string) :
  csv_filename filename <> json_filename filename.
Proof.
  unfold csv_filename, json_filename.
  destruct (Text.contains ".txt" filename) eqn:E; intros H.
  - apply replace_from_agree in H. simpl in H. congruence.
  - apply (f_equal String.length) in H. rewrite !append_length in H.
    simpl in H. lia.
Qed.

(** A name without [.txt] does not start a [.txt] when [.txt] is put
    after it. *)
Lemma no_match_across (stem : string) :
  Text.contains ".txt" stem = false ->
  stem <> EmptyString ->
  Text.startswith ".txt" (stem ++ ".txt") = false.
Proof.
  intros Hc Hne.
  destruct stem as [|c1 [|c2 [|c3 [|c4 rest]]]]; [congruence | ..];
    cbn [Text.contains] in Hc; apply orb_false_iff in Hc; destruct Hc as [Hs _];
    cbn [Text.startswith append] in *.
  - destruct (Ascii.eqb "." c1); reflexivity.
  - destruct (Ascii.eqb "." c1); [| reflexivity].
    destruct (Ascii.eqb "t" c2); reflexivity.
  - destruct (Ascii.eqb "." c1); [| reflexivity].
    destruct (Ascii.eqb "t" c2); [| reflexivity].
    destruct (Ascii.eqb "x" c3); reflexivity.
  - exact Hs.
Qed.

Lemma replace_stem (new stem : string) :
  Text.contains ".txt" stem = false ->
  replace ".txt" new (stem ++ ".txt") = (stem ++ new)%string.
Proof.
  unfold replace. induction stem as [|c t IH]; intros Hc.
  - cbn. induction new as [|a n IHn]; simpl; [reflexivity | now rewrite IHn].
  - assert (Hs : Text.startswith ".txt" (String c t ++ ".txt") = false).
    { apply no_match_across; [assumption | discriminate]. }
    cbn [append replace_from] in *. rewrite Hs. f_equal. apply IH.
    cbn [Text.contains] in Hc. apply orb_false_iff in Hc. tauto.
Qed.

(** X4.  For a file name [stem.txt] whose stem holds no [.txt], the
    extension is exchanged: the files are [stem.csv] and [stem.json].  For
    a file name without [.txt] the extensions are appended. *)
Theorem X4_output_names (stem : string) :
  Text.contains ".txt" stem = false ->
  csv_filename (stem ++ ".txt") = (stem ++ ".csv")%string /\
  json_filename (stem ++ ".txt") = (stem ++ ".json")%string /\
  csv_filename stem = (stem ++ ".csv")%string /\
  json_filename stem = (stem ++ ".json")%string.
Proof.
  intros Hc.
  assert (Hin : Text.contains ".txt" (stem ++ ".txt") = true).
  { apply contains_iff. exists stem, EmptyString. reflexivity. }
  unfold csv_filename, json_filename. rewrite Hin, Hc.
  repeat split; now apply replace_stem.
Qed.

(** X5.  The three URL columns of a row are the first three URLs of the
    result, filled up with empty strings, and the last column counts all
    the URLs; when there are at most three, the URLs can be read back from
    the row. *)
Theorem X5_row_holds_first_three_urls (r : result) :
  url_columns (row_of r) = firstn 3 (career_urls r ++ [""; ""; ""]) /\
  Total_Career_URLs (row_of r) = List.length (career_urls r) /\
  ((List.length (career_urls r) <= 3)%nat ->
   firstn (Total_Career_URLs (row_of r)) (url_columns (row_of r)) = career_urls r).
Proof.
  unfold url_columns, row_of, item_or_empty. cbn [Career_URL_1 Career_URL_2 Career_URL_3
                                               Total_Career_URLs].
  destruct (career_urls r) as [|u1 [|u2 [|u3 [|u4 rest]]]]; simpl;
    repeat split; try reflexivity; intros; lia.
Qed.

End SaveFacts.

(** ** The summary report *)

Section ReportFacts.
Import Batch.

Local Abbreviation more_urls := (fun a b : result => (url_count b <= url_count a)%nat).

Lemma insert_by_count_perm (r : result) (l : list result) :
  Permutation (insert_by_count r l) (r :: l).
Proof.
  induction l as [|r' rest IH]; simpl; [reflexivity |].
  destruct (url_count r <? url_count r')%nat; [| reflexivity].
  rewrite IH. apply perm_swap.
Qed.

Lemma sorted_by_count_perm (rs : list result) : Permutation (sorted_by_count rs) rs.
Proof.
  unfold sorted_by_count. induction rs as [|r rest IH]; simpl; [reflexivity |].
  rewrite insert_by_count_perm. now constructor.
Qed.

Lemma insert_by_count_sorted (r : result) (l : list result) :
  StronglySorted more_urls l -> StronglySorted more_urls (insert_by_count r l).
Proof.
  induction 1 as [| r' rest Hs IH Hall]; simpl.
  - repeat constructor.
  - destruct (Nat.ltb_spec (url_count r) (url_count r')) as [Hlt | Hge].
    + constructor; [assumption |].
      apply Forall_forall. intros x Hx.
      apply (Permutation_in _ (insert_by_count_perm r rest)) in Hx.
      destruct Hx as [<- | Hx]; [lia |].
      now apply (proj1 (Forall_forall _ _) Hall).
    + constructor; [now constructor |].
      constructor; [assumption |].
      apply Forall_forall. intros x Hx.
      pose proof (proj1 (Forall_forall _ _) Hall x Hx). simpl in *. lia.
Qed.

Lemma sorted_by_count_sorted (rs : list result) :
  StronglySorted more_urls (sorted_by_count rs).
Proof.
  unfold sorted_by_count. induction rs as [|r rest IH]; simpl; [constructor |].
  now apply insert_by_count_sorted.
Qed.

Lemma strongly_sorted_nth (l : list result) :
  StronglySorted more_urls l -> by_decreasing_count l.
Proof.
  unfold by_decreasing_count. induction 1 as [| a rest Hs IH Hall]; intros i j r r' Hi Hj Hij.
  - destruct i; discriminate.
  - destruct j as [|j]; [lia |]. simpl in Hj.
    destruct i as [|i]; simpl in Hi.
    + injection Hi as <-. apply nth_error_In in Hj.
      now apply (proj1 (Forall_forall _ _) Hall).
    + apply (IH i j); [assumption | assumption | lia].
Qed.

(** Entries with the same number of URLs keep the order they had. *)
Lemma insert_by_count_stable (c : nat) (r : result) (l : list result) :
  filter (fun x => url_count x =? c)%nat (insert_by_count r l) =
  filter (fun x => url_count x =? c)%nat (r :: l).
Proof.
  induction l as [|r' rest IH]; [reflexivity |]. cbn [insert_by_count].
  destruct (Nat.ltb_spec (url_count r) (url_count r')) as [Hlt | Hge]; [| reflexivity].
  cbn [filter] in *. rewrite IH.
  destruct (Nat.eqb_spec (url_count r') c) as [E' | N'];
    destruct (Nat.eqb_spec (url_count r) c) as [E | N]; try reflexivity. lia.
Qed.

Lemma sorted_by_count_stable (c : nat) (rs : list result) :
  filter (fun x => url_count x =? c)%nat (sorted_by_count rs) =
  filter (fun x => url_count x =? c)%nat rs.
Proof.
  unfold sorted_by_count. induction rs as [|r rest IH]; [reflexivity |].
  cbn [fold_right]. rewrite insert_by_count_stable. cbn [filter]. now rewrite IH.
Qed.

Lemma has_career_urls_count (r : result) :
  has_career_urls r = false -> url_count r = 0.
Proof. unfold has_career_urls, url_count. destruct (career_urls r); [reflexivity | discriminate]. Qed.

Lemma filter_length_split {A} (p : A -> bool) (l : list A) :
  List.length (filter p l) + List.length (filter (fun x => negb (p x)) l) = List.length l.
Proof.
  induction l as [|x t IH]; simpl; [reflexivity |].
  destruct (p x); simpl; lia.
Qed.

Lemma filter_length_mono {A} (p q : A -> bool) (l : list A) :
  (forall x, In x l -> p x = true -> q x = true) ->
  (List.length (filter p l) <= List.length (filter q l))%nat.
Proof.
  induction l as [|x t IH]; intros H; simpl; [lia |].
  assert (IH' := IH (fun y Hy => H y (or_intror Hy))).
  destruct (p x) eqn:Ep.
  - rewrite (H x (or_introl eq_refl) Ep). simpl. lia.
  - destruct (q x); simpl; lia.
Qed.

(** X6.  [generate_summary_report] fails with a division by zero exactly
    on an empty list of results.  Otherwise its numbers add up: every
    company is counted, the companies with and without a career page make
    up the total, and no count exceeds the total. *)
Theorem X6_report_fails_only_on_empty_results (results : list result) :
  match generate_summary_report results with
  | Raises e => results = [] /\ e = "division by zero"
  | Returns s =>
      results <> [] /\
      total_companies s = List.length results /\
      found_career_pages s + no_career_page s = total_companies s /\
      (found_websites s <= total_companies s)%nat /\
      (forall r, In r results ->
                 has_career_urls r = true -> found_career_pages s <> 0)
  end.
Proof.
  unfold generate_summary_report.
  destruct results as [|r0 rest]; [now split |].
  cbn [List.length Nat.eqb total_companies found_career_pages no_career_page found_websites].
  pose proof (filter_length_le has_career_urls (r0 :: rest)) as Hc.
  pose proof (filter_length_le (fun r => negb (is_sentinel (main_website r))) (r0 :: rest)) as Hw.
  cbn [List.length] in Hc, Hw.
  repeat split; [discriminate | lia | assumption |].
  intros r Hin Hr Hz.
  assert (Hr' : In r (filter has_career_urls (r0 :: rest))) by (apply filter_In; now split).
  destruct (filter has_career_urls (r0 :: rest)); [destruct Hr' | discriminate].
Qed.

(** X7.  The ranking of the report lists at most ten results, each with at
    least one career URL, by non-increasing number of URLs; results with
    the same number keep the order of the input list when all fit; and no
    result left out has more URLs than a listed one. *)
Theorem X7_top_companies_ranking (results : list result) (s : summary) :
  generate_summary_report results = Returns s ->
  (List.length (top_companies s) <= 10)%nat /\
  (forall r, In r (top_companies s) -> In r results /\ has_career_urls r = true) /\
  by_decreasing_count (top_companies s) /\
  (forall r t, In r results -> In t (top_companies s) ->
               In r (top_companies s) \/ (url_count r <= url_count t)%nat) /\
  ((List.length (filter has_career_urls results) <= 10)%nat ->
   Permutation (top_companies s) (filter has_career_urls results) /\
   forall c, filter (fun x => url_count x =? c)%nat (top_companies s) =
             filter (fun x => url_count x =? c)%nat (filter has_career_urls results)).
Proof.
  unfold generate_summary_report.
  destruct (List.length results =? 0)%nat; [discriminate |].
  set (with_urls := filter has_career_urls results).
  set (ranking := firstn 10 (sorted_by_count with_urls)).
  intros [= <-]. cbn [top_companies]. subst ranking.
  pose proof (sorted_by_count_perm with_urls) as Hperm.
  pose proof (strongly_sorted_nth _ (sorted_by_count_sorted with_urls)) as Hsorted.
  assert (Hsub : forall r, In r (firstn 10 (sorted_by_count with_urls)) ->
                           In r (sorted_by_count with_urls)).
  { intros r Hr. rewrite <- (firstn_skipn 10 (sorted_by_count with_urls)).
    apply in_or_app. now left. }
  split; [apply firstn_le_length |]. split; [| split; [| split]].
  - intros r Hr. apply Hsub in Hr. apply (Permutation_in _ Hperm) in Hr.
    now apply filter_In in Hr.
  - intros i j r r' Hi Hj Hij.
    rewrite nth_error_firstn in Hi, Hj.
    destruct (i <? 10)%nat; [| discriminate]. destruct (j <? 10)%nat; [| discriminate].
    now apply (Hsorted i j).
  - intros r t Hr Ht.
    destruct (has_career_urls r) eqn:Hu.
    + assert (Hin : In r (sorted_by_count with_urls)).
      { apply (Permutation_in _ (Permutation_sym Hperm)). apply filter_In. now split. }
      rewrite <- (firstn_skipn 10 (sorted_by_count with_urls)) in Hin.
      apply in_app_or in Hin. destruct Hin as [Hin | Hin]; [now left | right].
      apply In_nth_error in Hin. destruct Hin as [j Hj].
      apply In_nth_error in Ht. destruct Ht as [i Hi].
      rewrite nth_error_skipn in Hj. rewrite nth_error_firstn in Hi.
      destruct (Nat.ltb_spec i 10) as [Hlt | Hge]; [| discriminate].
      apply (Hsorted i (10 + j)); [assumption | assumption | lia].
    + right. rewrite (has_career_urls_count _ Hu). lia.
  - intros Hfew.
    assert (Hall : firstn 10 (sorted_by_count with_urls) = sorted_by_count with_urls).
    { apply firstn_all2. rewrite (Permutation_length Hperm). exact Hfew. }
    rewrite Hall. split; [exact Hperm |]. intros c. apply sorted_by_count_stable.
Qed.

End ReportFacts.

(** ** The run over a file of companies *)

Section ProcessFacts.
Import Batch.
Variable BeautifulSoup : string -> outcome (list a_tag).
Variable urljoin : string -> string -> outcome string.
Variable str_lower : string -> string.
Variable str_strip : string -> string.
Variable w : World.
Variable disk : Disk.

Local Abbreviation run := (find_career_page BeautifulSoup urljoin str_lower w).
Local Abbreviation discover := (found BeautifulSoup urljoin str_lower w).
Local Abbreviation loop := (process_loop BeautifulSoup urljoin str_lower w disk).
Local Abbreviation process := (process_companies_from_file BeautifulSoup urljoin str_lower str_strip w disk).

(** What every result of [find_career_page] looks like. *)
Lemma run_shape (company_name : string) (website : option string) :
  exists r,
    value (run company_name website) = Returns r /\
    company r = company_name /\
    (List.length (career_urls r) <= 3)%nat /\
    ((forall s, is_sentinel s = true -> exists e, http_get w s = Raises e) ->
     is_sentinel (main_website r) = true -> career_urls r = []).
Proof.
  destruct (homepage_of BeautifulSoup w company_name website) as [home |] eqn:Hhome.
  - destruct (run_homepage _ urljoin str_lower _ _ _ _ Hhome) as (Ht & Hv & _).
    destruct (guarded_returns BeautifulSoup urljoin str_lower w company_name home Ht) as [urls Hr].
    eexists. split; [rewrite Hv; exact Hr |]. cbn [company career_urls main_website].
    split; [reflexivity |]. split; [apply firstn_le_length |].
    intros Hrefuse Hs. destruct (Hrefuse home Hs) as [e Hget].
    rewrite (guarded_get_raises _ _ _ _ _ _ _ Ht Hget) in Hr.
    injection Hr as Hr. symmetry. exact Hr.
  - destruct (run_not_found _ urljoin str_lower _ _ _ Hhome) as [Hv _].
    eexists. split; [exact Hv |]. cbn. repeat split. lia.
Qed.

Lemma found_eq (company_name : string) :
  value (run company_name None) = Returns (discover company_name).
Proof.
  unfold found. destruct (run_shape company_name None) as (r & Hr & _).
  now rewrite Hr.
Qed.

Lemma finder_events_app (t1 t2 : list io_event) :
  finder_events (t1 ++ t2) = finder_events t1 ++ finder_events t2.
Proof.
  induction t1 as [|ev t IH]; [reflexivity |].
  destruct ev; simpl; now rewrite IH.
Qed.

Lemma finder_events_map (t : trace) : finder_events (map FINDER t) = t.
Proof. induction t as [|ev t IH]; simpl; [reflexivity | now rewrite IH]. Qed.

Lemma filter_map_FINDER (p : io_event -> bool) (t : trace) :
  (forall ev, p (FINDER ev) = false) -> filter p (map FINDER t) = [].
Proof.
  intros Hp. induction t as [|ev t IH]; simpl; [reflexivity |]. now rewrite Hp.
Qed.

Section WritableDisk.
Hypothesis writable : forall path, disk_write disk path = Returns tt.

Lemma save_results_ok (results : list result) (filename : string) :
  save_results disk results filename = (Returns tt, saved results filename).
Proof.
  unfold save_results, write_file, bindB. now rewrite !writable.
Qed.

(** One turn of the loop on a disk that takes every file. *)
Lemma process_loop_step (company_name : string) (rest : list string) (i : nat)
      (results : list result) (output_file : string) :
  loop (company_name :: rest) i results output_file =
  (fst (loop rest (S i) (results ++ [discover company_name]) output_file),
   map FINDER (events (run company_name None)) ++
   (if (i mod 50 =? 0)%nat
    then saved (results ++ [discover company_name]) (progress_name i output_file)
    else []) ++
   SLEEP 2 ::
   snd (loop rest (S i) (results ++ [discover company_name]) output_file)).
Proof.
  cbn [process_loop]. unfold finder. rewrite found_eq.
  unfold bindB at 1. cbn beta iota zeta.
  destruct (loop rest (S i) (results ++ [discover company_name]) output_file) as [o t].
  destruct (i mod 50 =? 0)%nat.
  - rewrite save_results_ok. unfold bindB, sleep, saved. cbn. reflexivity.
  - unfold bindB, sleep, retB. cbn. reflexivity.
Qed.

Lemma process_loop_value (companies : list string) (output_file : string) :
  forall i results,
    fst (loop companies i results output_file) =
    Returns (results ++ map discover companies).
Proof.
  induction companies as [|c rest IH]; intros i results.
  - cbn. now rewrite app_nil_r.
  - rewrite process_loop_step. cbn [fst map]. rewrite IH. now rewrite <- app_assoc.
Qed.

Lemma process_loop_finder_events (companies : list string) (output_file : string) :
  forall i results,
    finder_events (snd (loop companies i results output_file)) =
    flat_map (fun c => events (run c None)) companies.
Proof.
  induction companies as [|c rest IH]; intros i results; [reflexivity |].
  rewrite process_loop_step. cbn [snd flat_map].
  rewrite !finder_events_app, finder_events_map. f_equal.
  destruct (i mod 50 =? 0)%nat; cbn; apply IH.
Qed.

Lemma process_loop_sleeps (companies : list string) (output_file : string) :
  forall i results,
    filter is_SLEEP (snd (loop companies i results output_file)) =
    repeat (SLEEP 2) (List.length companies).
Proof.
  induction companies as [|c rest IH]; intros i results; [reflexivity |].
  rewrite process_loop_step. cbn [snd List.length repeat].
  rewrite !filter_app, filter_map_FINDER by reflexivity.
  destruct (i mod 50 =? 0)%nat; cbn; now rewrite IH.
Qed.

Lemma div50_step (n : nat) :
  (S n mod 50 = 0 -> S n / 50 = S (n / 50) /\ 50 * (S n / 50) = S n) /\
  (S n mod 50 <> 0 -> S n / 50 = n / 50).
Proof.
  pose proof (Nat.div_mod_eq (S n) 50). pose proof (Nat.div_mod_eq n 50).
  pose proof (Nat.mod_upper_bound n 50). pose proof (Nat.mod_upper_bound (S n) 50).
  split; intros; nia.
Qed.

(** The files written by the loop are the checkpoints still ahead. *)
Lemma process_loop_writes (companies : list string) (output_file : string) :
  forall results,
    let all := results ++ map discover companies in
    filter is_WRITE
           (snd (loop companies (S (List.length results)) results output_file)) =
    flat_map (fun k => saved (firstn (50 * k) all) (progress_name (50 * k) output_file))
             (seq (List.length results / 50 + 1)
                  (List.length all / 50 - List.length results / 50)).
Proof.
  induction companies as [|c rest IH]; intros results all; subst all.
  - cbn [map]. rewrite app_nil_r, Nat.sub_diag. reflexivity.
  - rewrite process_loop_step. cbn [snd map].
    rewrite !filter_app, filter_map_FINDER by reflexivity. cbn [app filter is_WRITE].
    specialize (IH (results ++ [discover c])). cbn zeta in IH.
    rewrite <- app_assoc in IH. cbn [app] in IH.
    rewrite length_app in IH. cbn [List.length] in IH.
    rewrite Nat.add_1_r in IH. rewrite IH. clear IH.
    set (all := results ++ discover c :: map discover rest).
    set (n := List.length results).
    assert (Hlen : (S n <= List.length all)%nat).
    { subst all n. rewrite length_app. cbn. lia. }
    pose proof (Nat.Div0.div_le_mono _ _ 50 Hlen) as Hdiv.
    destruct (div50_step n) as [Hzero Hnonzero].
    destruct (Nat.eqb_spec (S n mod 50) 0) as [Hm | Hm].
    + destruct (Hzero Hm) as [Hq Hmul].
      change (results ++ [discover c] ++ map discover rest) with all.
      replace (List.length all / 50 - n / 50) with (S (List.length all / 50 - S n / 50)) by lia.
      replace (n / 50 + 1) with (S n / 50) by lia.
      cbn [seq flat_map app]. rewrite Hmul, Nat.add_1_r.
      replace (firstn (S n) all) with (results ++ [discover c]); [reflexivity |].
      subst all n. change (discover c :: map discover rest)
        with ([discover c] ++ map discover rest).
      rewrite app_assoc. rewrite firstn_app.
      replace (S (List.length results) - List.length (results ++ [discover c])) with 0
        by (rewrite List.length_app; cbn [List.length]; lia).
      rewrite firstn_all2 by (rewrite List.length_app; cbn [List.length]; lia).
      cbn. now rewrite app_nil_r.
    + rewrite (Hnonzero Hm). reflexivity.
Qed.

Lemma report_returns (results : list result) :
  results <> [] -> exists s, generate_summary_report results = Returns s.
Proof.
  intros Hne. unfold generate_summary_report.
  destruct results; [congruence |]. cbn [List.length Nat.eqb]. eexists. reflexivity.
Qed.

(** The whole run on a readable input file and a disk that takes every
    file. *)
Lemma process_readable (input_file output_file : string) (lines : list string) :
  disk_read disk input_file = Lines lines ->
  process input_file output_file =
  (match company_names str_strip lines with
   | [] => Returns None
   | _ :: _ => Returns (Some (map discover (company_names str_strip lines)))
   end,
   OPEN input_file ::
   snd (loop (company_names str_strip lines) 1 [] output_file) ++
   saved (map discover (company_names str_strip lines)) output_file).
Proof.
  intros Hread. unfold process_companies_from_file, read_companies. rewrite Hread.
  unfold bindB at 1. cbn beta iota.
  pose proof (process_loop_value (company_names str_strip lines) output_file 1 []) as Hv.
  destruct (loop (company_names str_strip lines) 1 [] output_file) as [o t].
  cbn [fst snd app] in *. subst o.
  unfold bindB at 1. cbn beta iota. rewrite save_results_ok.
  change ([] ++ map discover (company_names str_strip lines))
    with (map discover (company_names str_strip lines)).
  destruct (company_names str_strip lines) as [| c rest] eqn:E.
  - cbn. rewrite app_nil_r. reflexivity.
  - destruct (report_returns (map discover (c :: rest))) as [s Hs]; [discriminate |].
    rewrite Hs. cbn. rewrite ?app_nil_r. reflexivity.
Qed.

(** X8.  On a readable input file with at least one company and a disk
    that takes every file, the run returns one result per company of the
    file, in the order of the file: the result [find_career_page] returns
    for that company, under that company's name. *)
Theorem X8_one_result_per_company
  (input_file output_file : string) (lines : list string) :
  disk_read disk input_file = Lines lines ->
  company_names str_strip lines <> [] ->
  exists results,
    fst (process input_file output_file) = Returns (Some results) /\
    map company results = company_names str_strip lines /\
    Forall2 (fun company_name r => value (run company_name None) = Returns r)
            (company_names str_strip lines) results.
Proof.
  intros Hread Hne. exists (map discover (company_names str_strip lines)).
  rewrite (process_readable _ _ _ Hread). cbn [fst].
  split; [destruct (company_names str_strip lines); [congruence | reflexivity] |].
  clear Hne. induction (company_names str_strip lines) as [| c rest [IHc IHf]]; cbn [map].
  - split; constructor.
  - split.
    + f_equal; [| exact IHc]. unfold found.
      destruct (run_shape c None) as (r & Hr & Hc & _). now rewrite Hr.
    + constructor; [apply found_eq | exact IHf].
Qed.

(** X9.  The requests of such a run are those of [find_career_page] for
    the first company, then for the second, and so on, each company once;
    and the run pauses two seconds after every company. *)
Theorem X9_companies_are_processed_in_turn
  (input_file output_file : string) (lines : list string) :
  disk_read disk input_file = Lines lines ->
  finder_events (snd (process input_file output_file)) =
    flat_map (fun company_name => events (run company_name None)) (company_names str_strip lines) /\
  filter is_SLEEP (snd (process input_file output_file)) =
    repeat (SLEEP 2) (List.length (company_names str_strip lines)).
Proof.
  intros Hread. rewrite (process_readable _ _ _ Hread). cbn [snd]. split.
  - cbn [finder_events]. rewrite finder_events_app, process_loop_finder_events.
    cbn. now rewrite app_nil_r.
  - cbn [filter is_SLEEP]. rewrite filter_app, process_loop_sleeps.
    cbn. now rewrite app_nil_r.
Qed.

(** X10.  The files written by such a run are, in this order: after every
    fiftieth company, the CSV and the JSON file of a checkpoint named
    [progress_<count>_<output_file>] with the results so far; and at the
    end the CSV and the JSON file of all the results. *)
Theorem X10_checkpoints_every_fifty
  (input_file output_file : string) (lines : list string) :
  disk_read disk input_file = Lines lines ->
  let results := map discover (company_names str_strip lines) in
  filter is_WRITE (snd (process input_file output_file)) =
  checkpoints results output_file ++ saved results output_file.
Proof.
  intros Hread results. rewrite (process_readable _ _ _ Hread). cbn [snd filter is_WRITE].
  rewrite filter_app.
  pose proof (process_loop_writes (company_names str_strip lines) output_file []) as Hw.
  cbn zeta in Hw. cbn [List.length app] in Hw. rewrite Hw.
  unfold checkpoints. subst results.
  replace (0 / 50 + 1) with 1 by reflexivity.
  replace (0 / 50) with 0 by reflexivity. rewrite Nat.sub_0_r.
  f_equal.
Qed.

(** X11.  With an input file that holds no company (empty, or only lines
    that [strip] empties), the run still writes the two output files,
    without results, and then returns [None]: the division by zero of the
    report ends it. *)
Theorem X11_no_company_writes_empty_files_and_returns_None
  (input_file output_file : string) (lines : list string) :
  disk_read disk input_file = Lines lines ->
  Forall (fun line => str_strip line = EmptyString) lines ->
  process input_file output_file =
  (Returns None, OPEN input_file :: saved [] output_file).
Proof.
  intros Hread Hblank. rewrite (process_readable _ _ _ Hread).
  assert (Hnone : company_names str_strip lines = []).
  { unfold company_names. clear Hread.
    induction Hblank as [| line rest Hb _ IH]; [reflexivity |].
    cbn [filter]. rewrite Hb. exact IH. }
  rewrite Hnone. reflexivity.
Qed.

End WritableDisk.

(** X12.  When the input file cannot be opened or read, the run returns
    [None] after the attempt to open it: no request is sent and no file is
    written. *)
Theorem X12_unreadable_input_stops_the_run (input_file output_file : string) :
  disk_read disk input_file = FileNotFoundError \/
  (exists e, disk_read disk input_file = ReadError e) ->
  process input_file output_file = (Returns None, [OPEN input_file]).
Proof.
  intros [Hread | [e Hread]];
    unfold process_companies_from_file, read_companies; now rewrite Hread.
Qed.

Section ReadOnlyDisk.
Hypothesis refused : forall path, exists e, disk_write disk path = Raises e.

Lemma save_results_refused (results : list result) (filename : string) :
  exists e, save_results disk results filename = (Raises e, []).
Proof.
  unfold save_results, write_file, bindB.
  destruct (refused (csv_filename filename)) as [e He]. rewrite He. now exists e.
Qed.

(** One turn of the loop on a disk that takes no file. *)
Lemma process_loop_step_refused (company_name : string) (rest : list string) (i : nat)
      (results : list result) (output_file : string) :
  exists e,
    loop (company_name :: rest) i results output_file =
    if (i mod 50 =? 0)%nat
    then (Raises e, map FINDER (events (run company_name None)))
    else (fst (loop rest (S i) (results ++ [discover company_name]) output_file),
          map FINDER (events (run company_name None)) ++
          SLEEP 2 ::
          snd (loop rest (S i) (results ++ [discover company_name]) output_file)).
Proof.
  cbn [process_loop]. unfold finder. rewrite found_eq.
  unfold bindB at 1. cbn beta iota zeta.
  destruct (save_results_refused (results ++ [discover company_name])
              (progress_name i output_file)) as [e He].
  exists e.
  destruct (loop rest (S i) (results ++ [discover company_name]) output_file) as [o t].
  destruct (i mod 50 =? 0)%nat.
  - rewrite He. cbn. now rewrite app_nil_r.
  - unfold bindB, sleep, retB. cbn. reflexivity.
Qed.

(** On a disk that takes no file the loop stops at the first checkpoint. *)
Lemma process_loop_refused (companies : list string) (output_file : string) :
  forall results,
    (List.length results < 50)%nat ->
    let p := loop companies (S (List.length results)) results output_file in
    finder_events (snd p) =
      flat_map (fun c => events (run c None))
               (firstn (50 - List.length results) companies) /\
    filter is_WRITE (snd p) = [] /\
    (fst p = Returns (results ++ map discover companies) \/ exists e, fst p = Raises e).
Proof.
  induction companies as [| c rest IH]; intros results Hlt p; subst p.
  - cbn. rewrite firstn_nil, app_nil_r. auto.
  - destruct (process_loop_step_refused c rest (S (List.length results)) results output_file)
      as [e Hstep].
    rewrite Hstep. clear Hstep.
    replace (50 - List.length results) with (S (50 - S (List.length results))) by lia.
    cbn [firstn flat_map].
    destruct (Nat.eqb_spec (S (List.length results) mod 50) 0) as [Hm | Hm].
    + assert (Hn : List.length results = 49).
      { destruct (Nat.eq_dec (List.length results) 49) as [E | N]; [exact E |].
        rewrite Nat.mod_small in Hm by lia. discriminate. }
      cbn [fst snd]. rewrite finder_events_map, Hn. cbn [Nat.sub firstn flat_map].
      rewrite app_nil_r. repeat split.
      * apply filter_map_FINDER. reflexivity.
      * right. now exists e.
    + assert (Hlt' : (List.length (results ++ [discover c]) < 50)%nat).
      { rewrite List.length_app. cbn [List.length].
        destruct (Nat.eq_dec (List.length results) 49) as [E | N]; [| lia].
        rewrite E in Hm. now contradiction Hm. }
      specialize (IH (results ++ [discover c]) Hlt'). cbn zeta in IH.
      rewrite List.length_app in IH. cbn [List.length] in IH. rewrite Nat.add_1_r in IH.
      destruct (loop rest (S (S (List.length results))) (results ++ [discover c]) output_file)
        as [o t].
      cbn [fst snd] in *. destruct IH as (Hf & Hw & Hv).
      rewrite !finder_events_app, finder_events_map, filter_app,
        (filter_map_FINDER is_WRITE) by reflexivity.
      cbn [finder_events filter is_WRITE app]. rewrite Hf, Hw.
      repeat split. rewrite <- app_assoc in Hv. exact Hv.
Qed.

(** The whole run on a readable input file and a disk that takes no
    file. *)
Lemma process_refused (input_file output_file : string) (lines : list string) :
  disk_read disk input_file = Lines lines ->
  process input_file output_file =
  (Returns None, OPEN input_file :: snd (loop (company_names str_strip lines) 1 [] output_file)).
Proof.
  intros Hread.
  unfold process_companies_from_file, read_companies. rewrite Hread.
  unfold bindB at 1. cbn beta iota.
  destruct (process_loop_refused (company_names str_strip lines) output_file [])
    as (_ & _ & Hv); [cbn; lia |].
  cbn [List.length app] in Hv.
  destruct (loop (company_names str_strip lines) 1 [] output_file) as [o t].
  cbn [fst snd] in *.
  destruct Hv as [-> | [e ->]].
  - unfold bindB at 1. cbn beta iota.
    change ([] ++ map discover (company_names str_strip lines))
      with (map discover (company_names str_strip lines)).
    destruct (save_results_refused (map discover (company_names str_strip lines)) output_file)
      as [e He].
    rewrite He. cbn. now rewrite !app_nil_r.
  - cbn. now rewrite !app_nil_r.
Qed.

(** X13.  On a disk that takes no file the run returns [None] and writes
    nothing; it stops at the first checkpoint, so only the first fifty
    companies of the file are looked up. *)
Theorem X13_refused_writes_stop_the_run
  (input_file output_file : string) (lines : list string) :
  disk_read disk input_file = Lines lines ->
  let p := process input_file output_file in
  fst p = Returns None /\
  filter is_WRITE (snd p) = [] /\
  finder_events (snd p) =
    flat_map (fun company_name => events (run company_name None))
             (firstn 50 (company_names str_strip lines)).
Proof.
  intros Hread p. subst p. rewrite (process_refused _ _ _ Hread).
  destruct (process_loop_refused (company_names str_strip lines) output_file [])
    as (Hf & Hw & _); [cbn; lia |].
  cbn [List.length] in Hf, Hw. rewrite Nat.sub_0_r in Hf.
  cbn [fst snd filter is_WRITE finder_events]. auto.
Qed.

End ReadOnlyDisk.

(** X14.  On a network whose client refuses "Not found" and "Error" as
    URLs, the report on results of [find_career_page] never counts more
    career pages found than main websites found. *)
Theorem X14_career_pages_need_a_website (companies : list string) (s : summary) :
  (forall u, is_sentinel u = true -> exists e, http_get w u = Raises e) ->
  generate_summary_report (map discover companies) = Returns s ->
  (found_career_pages s <= found_websites s)%nat.
Proof.
  intros Hrefuse. unfold generate_summary_report.
  destruct (List.length (map discover companies) =? 0)%nat; [discriminate |].
  intros [= <-]. cbn [found_career_pages found_websites].
  apply filter_length_mono. intros r Hin Hurls.
  apply in_map_iff in Hin. destruct Hin as (c & <- & _).
  destruct (is_sentinel (main_website (discover c))) eqn:Hs; [| reflexivity].
  unfold found in *. destruct (run_shape c None) as (r & Hr & _ & _ & Hsent).
  rewrite Hr in *. unfold has_career_urls in Hurls.
  rewrite (Hsent Hrefuse Hs) in Hurls. discriminate.
Qed.

(** X15.  The CSV row of a result of [find_career_page] loses nothing: it
    carries the company name, its count is at most three, and the URL
    columns up to the count are the [career_urls] of the result. *)
Theorem X15_rows_of_found_results_are_complete (company_name : string) :
  let r := discover company_name in
  let row := row_of r in
  Company row = company_name /\
  Main_Website row = main_website r /\
  (Total_Career_URLs row <= 3)%nat /\
  firstn (Total_Career_URLs row) (url_columns row) = career_urls r.
Proof.
  intros r row. subst r row. unfold found.
  destruct (run_shape company_name None) as (r & Hr & Hc & Hlen & _). rewrite Hr.
  unfold url_columns, row_of, item_or_empty.
  cbn [Company Main_Website Career_URL_1 Career_URL_2 Career_URL_3 Total_Career_URLs].
  destruct (career_urls r) as [|u1 [|u2 [|u3 [|u4 rest]]]]; cbn in *;
    repeat split; try assumption; try lia.
Qed.

End ProcessFacts.

(** ** The batch layer on concrete files *)

Section BatchScenarios.
Import Fixtures Batch BatchFixtures.

Local Abbreviation process :=
  (process_companies_from_file parser urljoin_origin Text.lower strip_ascii net_careers).
Local Abbreviation discover := (found parser urljoin_origin Text.lower net_careers).

Lemma writable_disk files : forall path, disk_write (disk_with files true) path = Returns tt.
Proof. reflexivity. Defined.

Lemma read_only_disk files :
  forall path, exists e, disk_write (disk_with files false) path = Raises e.
Proof. intros path. eexists. reflexivity. Defined.

(** X4 on the input file name of [main]. *)
Lemma X4_output_names_witness :
  csv_filename "standardized_companies.txt" = "standardized_companies.csv" /\
  json_filename "standardized_companies.txt" = "standardized_companies.json" /\
  csv_filename "standardized_companies" = "standardized_companies.csv" /\
  json_filename "standardized_companies" = "standardized_companies.json".
Proof.
  apply (X4_output_names "standardized_companies"). reflexivity.
Defined.

(** X7 on four results, two of them with three URLs. *)
Lemma X7_top_companies_ranking_witness :
  exists s,
    generate_summary_report four_results = Returns s /\
    map company (top_companies s) = ["B"; "D"; "A"] /\
    by_decreasing_count (top_companies s).
Proof.
  eexists. split; [reflexivity |]. split; [reflexivity |].
  apply (X7_top_companies_ranking four_results _ eq_refl).
Defined.

(** X8 on the file with two companies. *)
Lemma X8_one_result_per_company_witness :
  exists results,
    fst (process disk_two input_file output_file) = Returns (Some results) /\
    map company results = ["Acme"; "Globex Corporation"] /\
    Forall2 (fun company_name r =>
               value (find_career_page parser urljoin_origin Text.lower net_careers company_name None)
               = Returns r)
            ["Acme"; "Globex Corporation"] results.
Proof.
  apply (X8_one_result_per_company parser urljoin_origin Text.lower strip_ascii net_careers disk_two
           (writable_disk _) input_file output_file two_companies).
  - reflexivity.
  - discriminate.
Defined.

(** X9 on the file with two companies. *)
Lemma X9_companies_are_processed_in_turn_witness :
  finder_events (snd (process disk_two input_file output_file)) =
    [ GET "https://duckduckgo.com/html/?q=Acme official website" 10;
      GET "https://acme.example" 10;
      GET "https://duckduckgo.com/html/?q=Globex Corporation official website" 10;
      PRINT "Search error for Globex Corporation: Read timed out. (read timeout=10)" ] /\
  filter is_SLEEP (snd (process disk_two input_file output_file)) = [SLEEP 2; SLEEP 2].
Proof.
  exact (X9_companies_are_processed_in_turn parser urljoin_origin Text.lower strip_ascii net_careers disk_two
           (writable_disk _) input_file output_file two_companies eq_refl).
Defined.

(** X10 on a file of 120 companies: two checkpoints, then the final
    files. *)
Lemma X10_checkpoints_every_fifty_witness :
  written_paths (snd (process disk_many input_file output_file)) =
  [ "progress_50_company_career_pages.csv"; "progress_50_company_career_pages.json";
    "progress_100_company_career_pages.csv"; "progress_100_company_career_pages.json";
    "company_career_pages.csv"; "company_career_pages.json" ] /\
  filter is_WRITE (snd (process disk_many input_file output_file)) =
  checkpoints (map discover (repeat "Acme" 120)) output_file ++
  saved (map discover (repeat "Acme" 120)) output_file.
Proof.
  split; [vm_compute; reflexivity |].
  exact (X10_checkpoints_every_fifty parser urljoin_origin Text.lower strip_ascii net_careers disk_many
           (writable_disk _) input_file output_file many_companies eq_refl).
Defined.

(** X11 on a file of blank lines. *)
Lemma X11_no_company_writes_empty_files_and_returns_None_witness :
  process disk_blank input_file output_file =
  (Returns None,
   [ OPEN "standardized_companies.txt";
     WRITE "company_career_pages.csv" (CSV []);
     WRITE "company_career_pages.json" (JSON []) ]).
Proof.
  apply (X11_no_company_writes_empty_files_and_returns_None parser urljoin_origin
           Text.lower strip_ascii net_careers disk_blank (writable_disk _)
           input_file output_file [ "  "; "" ]).
  - reflexivity.
  - repeat constructor.
Defined.

(** X12 on a disk without the input file. *)
Lemma X12_unreadable_input_stops_the_run_witness :
  process disk_empty input_file output_file =
  (Returns None, [OPEN "standardized_companies.txt"]).
Proof.
  apply (X12_unreadable_input_stops_the_run parser urljoin_origin Text.lower strip_ascii net_careers disk_empty).
  left. reflexivity.
Defined.

(** X13 on a read-only disk and a file of 120 companies. *)
Lemma X13_refused_writes_stop_the_run_witness :
  fst (process disk_read_only input_file output_file) = Returns None /\
  filter is_WRITE (snd (process disk_read_only input_file output_file)) = [] /\
  finder_events (snd (process disk_read_only input_file output_file)) =
    flat_map (fun company_name =>
                events (find_career_page parser urljoin_origin Text.lower net_careers company_name None))
             (repeat "Acme" 50).
Proof.
  exact (X13_refused_writes_stop_the_run parser urljoin_origin Text.lower strip_ascii net_careers disk_read_only
           (read_only_disk _) input_file output_file many_companies eq_refl).
Defined.

(** X14 on the two companies. *)
Lemma X14_career_pages_need_a_website_witness :
  exists s,
    generate_summary_report (map discover ["Acme"; "Globex Corporation"]) = Returns s /\
    (found_career_pages s <= found_websites s)%nat.
Proof.
  eexists. split; [reflexivity |].
  apply (X14_career_pages_need_a_website parser urljoin_origin Text.lower net_careers
           ["Acme"; "Globex Corporation"]).
  - apply network_refuses_sentinels.
  - reflexivity.
Defined.

End BatchScenarios.
